(** * EB_CondaEnv: a shallow embedding of [easybuild/easyblocks/c/condaenv.py]

    The easyblock is a sequence of shell-outs and file operations wrapped in
    the lifecycle hooks of the EasyBuild framework.  Its methods are embedded
    as computations in a state-and-exception monad over a [world] that holds
    what the Python code can observe or change: [os.environ], the file
    system, the dictionaries stored in [self.src], the ordered trace of
    external actions, and the log. *)

From Stdlib Require Import ZArith String Ascii List Lia.
From stdpp Require Import base tactics option strings gmap list functions pretty.
Import ListNotations.

Local Open Scope Z_scope.
Local Open Scope string_scope.

(** ** Python values, exceptions *)

(** The values that occur in the build configuration and in the source
    descriptors: [None] and [str]. *)
Inductive pyval :=
| VNone
| VStr (s : string).

(** Python truthiness, as used by [if not x:]. *)
Definition truthy (v : pyval) : bool :=
  match v with
  | VNone => false
  | VStr EmptyString => false
  | VStr (String _ _) => true
  end.

(** [str.format] / [%s] on a value. *)
Definition py_str (v : pyval) : string :=
  match v with
  | VNone => "None"
  | VStr s => s
  end.

Inductive exn :=
| OSError (errno : Z) (strerror filename : string)
| IOError (errno : Z) (strerror filename : string)
| ShutilError (msg : string)
| KeyError (key : string)
| AttributeError (msg : string)
| TypeError (msg : string)
| EasyBuildError (msg : string).

(** [repr] of a Python 2 [str]: single quotes, unless the string holds a
    single quote and no double quote; the quote and the backslash are
    escaped, tab, newline and carriage return are written as letters, and
    any other byte outside the printable ASCII range as [\xNN]. *)
Definition squote : ascii := "'"%char.
Definition dquote : ascii := "034"%char.
Definition backslash : ascii := "092"%char.

Fixpoint str_contains (c : ascii) (s : string) : bool :=
  match s with
  | EmptyString => false
  | String a r => Ascii.eqb a c || str_contains c r
  end.

Definition hex_digit (n : N) : ascii :=
  if (n <? 10)%N then ascii_of_N (48 + n) else ascii_of_N (87 + n).

Definition repr_char (quote c : ascii) : string :=
  let n := N_of_ascii c in
  if Ascii.eqb c quote || Ascii.eqb c backslash then String backslash (String c EmptyString)
  else if (n =? 9)%N then String backslash "t"
  else if (n =? 10)%N then String backslash "n"
  else if (n =? 13)%N then String backslash "r"
  else if (n <? 32)%N || (127 <=? n)%N
  then String backslash
         (String "x"%char
            (String (hex_digit (n / 16)) (String (hex_digit (n mod 16)) EmptyString)))
  else String c EmptyString.

Fixpoint repr_body (quote : ascii) (s : string) : string :=
  match s with
  | EmptyString => EmptyString
  | String c r => repr_char quote c +:+ repr_body quote r
  end.

Definition py_repr (s : string) : string :=
  let quote := if str_contains squote s && negb (str_contains dquote s)
               then dquote else squote in
  String quote (repr_body quote s +:+ String quote EmptyString).

(** [str(err)] for the exceptions that carry an errno and a file name:
    the file name is shown with [repr]. *)
Definition errno_str (errno : Z) (strerror filename : string) : string :=
  "[Errno " +:+ pretty errno +:+ "] " +:+ strerror +:+ ": " +:+ py_repr filename.

Definition str_exn (e : exn) : string :=
  match e with
  | OSError n s f => errno_str n s f
  | IOError n s f => errno_str n s f
  | ShutilError m => m
  | KeyError k => py_repr k
  | AttributeError m => m
  | TypeError m => m
  | EasyBuildError m => m
  end.

(** The classes named by [except (OSError, IOError), err]. *)
Definition is_fs_error (e : exn) : bool :=
  match e with
  | OSError _ _ _ | IOError _ _ _ => true
  | _ => false
  end.

Inductive result (A : Type) :=
| Ok (a : A)
| Raise (e : exn).
Arguments Ok {A} a.
Arguments Raise {A} e.

(** ** The world *)

Record file := mkFile { content : string; mode : Z; mtime : Z }.

Inductive node :=
| NDir
| NFile (f : file).

Inductive event :=
| ERmtree (path : string)
| ECopy2 (source dest : string)
| EChmod (path : string) (perm : Z)
| ECmd (cmd : string) (env : gmap string string).

Inductive level := LvlDebug | LvlInfo.

Definition loc := nat.

Record world := mkWorld {
  environ : gmap string string;
  fs : gmap string node;
  heap : loc → gmap string pyval;
  trace : list event;
  logged : list (level * string * list pyval)
}.

(** The fields of [self] that the easyblock reads.  [src] holds references
    to the descriptor dictionaries, which live in the [heap]. *)
Record easyblock := mkEasyblock {
  cfg : gmap string pyval;
  installdir : string;
  builddir : string;
  src : list loc
}.

(** ** State and exception monad

    An exception keeps the state changes made before it was raised. *)
Definition M (A : Type) : Type := world → result A * world.

Global Instance M_ret : MRet M := λ A x w, (Ok x, w).
Global Instance M_bind : MBind M := λ A B f m w,
  match m w with
  | (Ok x, w') => f x w'
  | (Raise e, w') => (Raise e, w')
  end.

Definition raise {A} (e : exn) : M A := λ w, (Raise e, w).

(** [try: body except (OSError, IOError), err: handler err] *)
Definition try_except_fs {A} (body : M A) (handler : exn → M A) : M A := λ w,
  match body w with
  | (Raise e, w') => if is_fs_error e then handler e w' else (Raise e, w')
  | r => r
  end.

(** [for x in xs: body x] *)
Fixpoint for_each {A} (xs : list A) (body : A → M unit) : M unit :=
  match xs with
  | [] => mret tt
  | x :: xs' => body x ;; for_each xs' body
  end.

Definition emit (e : event) : M unit := λ w,
  (Ok tt, mkWorld (environ w) (fs w) (heap w) (trace w ++ [e]) (logged w)).

Definition get_fs : M (gmap string node) := λ w, (Ok (fs w), w).
Definition put_fs (f : gmap string node) : M unit := λ w,
  (Ok tt, mkWorld (environ w) f (heap w) (trace w) (logged w)).

(** [self.log.debug(msg, *args)], [self.log.info(msg)]: logging never
    changes the control flow. *)
Definition log (l : level) (msg : string) (args : list pyval) : M unit := λ w,
  (Ok tt, mkWorld (environ w) (fs w) (heap w) (trace w) (logged w ++ [(l, msg, args)])).

(** ** Paths: [os.path.join], [os.path.basename] (posixpath) *)

Definition slash : ascii := "/"%char.

Definition starts_with_slash (s : string) : bool :=
  match s with
  | String c _ => Ascii.eqb c slash
  | EmptyString => false
  end.

Fixpoint ends_with_slash (s : string) : bool :=
  match s with
  | EmptyString => false
  | String c EmptyString => Ascii.eqb c slash
  | String _ r => ends_with_slash r
  end.

Fixpoint has_slash (s : string) : bool :=
  match s with
  | EmptyString => false
  | String c r => Ascii.eqb c slash || has_slash r
  end.

Definition os_path_join (a b : string) : string :=
  if starts_with_slash b then b
  else match a with
       | EmptyString => b
       | _ => if ends_with_slash a then a +:+ b else a +:+ "/" +:+ b
       end.

Fixpoint os_path_basename (p : string) : string :=
  match p with
  | EmptyString => EmptyString
  | String _ r => if has_slash p then os_path_basename r else p
  end.

(** [p] is [d] itself or lies below it. *)
Definition under (d p : string) : bool :=
  String.eqb p d || String.prefix (d +:+ "/") p.

(** ** Library and framework primitives *)

Definition S_IRWXU : Z := 448.

(** [os.path.join(a, b)] where [b] was read from a dictionary: a [None]
    component has no [startswith]. *)
Definition os_path_join_val (a : string) (b : pyval) : M string :=
  match b with
  | VStr s => mret (os_path_join a s)
  | VNone => raise (AttributeError "'NoneType' object has no attribute 'startswith'")
  end.

Definition is_dir (f : gmap string node) (p : string) : bool :=
  match f !! p with
  | Some NDir => true
  | _ => false
  end.

Definition is_file (f : gmap string node) (p : string) : bool :=
  match f !! p with
  | Some (NFile _) => true
  | _ => false
  end.

(** Some proper prefix of the path, taken up to one of its slashes, is a
    regular file.  [pre] is the part of the path already walked. *)
Fixpoint below_file_from (f : gmap string node) (pre rest : string) : bool :=
  match rest with
  | EmptyString => false
  | String c r =>
      (Ascii.eqb c slash && is_file f pre)
      || below_file_from f (pre +:+ String c EmptyString) r
  end.

Fixpoint drop_slashes (s : string) : string :=
  match s with
  | String c r => if Ascii.eqb c slash then drop_slashes r else s
  | EmptyString => s
  end.

(** The path without its trailing slashes (a path of slashes only is
    kept). *)
Definition strip_trailing_slashes (s : string) : string :=
  match String.rev (drop_slashes (String.rev s)) with
  | EmptyString => s
  | q => q
  end.

(** What the operating system finds at a path: a regular file, a
    directory (also when the path names it with a trailing slash),
    [ENOTDIR] when a component of the path is a regular file, [ENOENT]
    otherwise.  Paths are compared as strings: links, [.], [..] and
    repeated slashes are not resolved. *)
Inductive stat_result :=
| SFile (x : file)
| SDir
| SNotDir
| SNoEnt.

Definition fs_stat (f : gmap string node) (p : string) : stat_result :=
  match f !! p with
  | Some (NFile x) => SFile x
  | Some NDir => SDir
  | None =>
      if below_file_from f EmptyString p then SNotDir
      else if is_dir f (strip_trailing_slashes p) then SDir
      else SNoEnt
  end.

(** [shutil.copy2(src, dst)]: copy contents, permission bits and times.
    When [dst] is a directory the file is placed inside it under the
    basename of [src].  Modelled failures: the source is missing, lies
    below a regular file or is a directory, source and target are the same
    path, the target is a directory.  Links, the parent directory of the
    target and access rights are not modelled. *)
Definition shutil_copy2 (source : pyval) (dst : string) : M unit :=
  match source with
  | VNone =>
      f ← get_fs;
      if is_dir f dst
      then raise (AttributeError "'NoneType' object has no attribute 'rfind'")
      else raise (TypeError "coercing to Unicode: need string or buffer, NoneType found")
  | VStr s =>
      emit (ECopy2 s dst);;
      f ← get_fs;
      let target := if is_dir f dst then os_path_join dst (os_path_basename s) else dst in
      match fs_stat f s with
      | SNoEnt => raise (IOError 2 "No such file or directory" s)
      | SNotDir => raise (IOError 20 "Not a directory" s)
      | SDir =>
          if String.eqb s target
          then raise (ShutilError ("`" +:+ s +:+ "` and `" +:+ target +:+ "` are the same file"))
          else raise (IOError 21 "Is a directory" s)
      | SFile x =>
          if String.eqb s target
          then raise (ShutilError ("`" +:+ s +:+ "` and `" +:+ target +:+ "` are the same file"))
          else if is_dir f target
          then raise (IOError 21 "Is a directory" target)
          else put_fs (<[target := NFile x]> f)
      end
  end.

(** [os.chmod(path, mode)]: the permission bits of directories are not
    modelled. *)
Definition os_chmod (path : string) (perm : Z) : M unit :=
  emit (EChmod path perm);;
  f ← get_fs;
  match fs_stat f path with
  | SNoEnt => raise (OSError 2 "No such file or directory" path)
  | SNotDir => raise (OSError 20 "Not a directory" path)
  | SDir => mret tt
  | SFile x => put_fs (<[path := NFile (mkFile (content x) perm (mtime x))]> f)
  end.

(** Modelled from the spec: [easybuild.tools.filetools.rmtree2] is framework
    code that is not part of this source tree.  It recursively deletes the
    directory; absence is not an error. *)
Definition rmtree2 (path : string) : M unit :=
  emit (ERmtree path);;
  f ← get_fs;
  put_fs (filter (λ kv, under path kv.1 = false) f).

(** Modelled from the spec: [easybuild.tools.environment.setvar] is framework
    code that is not part of this source tree.  It binds the variable in the
    environment of the calling process, in place. *)
Definition setvar (key value : string) : M unit := λ w,
  (Ok tt, mkWorld (<[key := value]> (environ w)) (fs w) (heap w) (trace w) (logged w)).

(** [os.environ.copy()] *)
Definition os_environ_copy : M (gmap string string) := λ w, (Ok (environ w), w).

(** [d[key]] on a plain dictionary *)
Definition dict_get (d : gmap string string) (key : string) : M string :=
  match d !! key with
  | Some v => mret v
  | None => raise (KeyError key)
  end.

(** [source[key]] for a descriptor held in the heap *)
Definition descr_get (l : loc) (key : string) : M pyval := λ w,
  match heap w l !! key with
  | Some v => (Ok v, w)
  | None => (Raise (KeyError key), w)
  end.

(** [source[key] = value] *)
Definition descr_set (l : loc) (key : string) (value : pyval) : M unit := λ w,
  (Ok tt, mkWorld (environ w) (fs w) (<[l := <[key := value]> (heap w l)]> (heap w))
            (trace w) (logged w)).

(** The message of the error raised for a failed command. *)
Definition cmd_error_msg (cmd : string) (ec : Z) (out : string) : string :=
  "cmd " +:+ cmd +:+ " exited with exitcode " +:+ pretty ec +:+ " and output: " +:+ out.

Inductive cmd_result :=
| RSimple (ok : bool)
| RFull (out : string) (ec : Z).

(** ** The easyblock *)

Inductive category := CUSTOM | MANDATORY.

(** [extra_options]: [base] is what [EasyBlock.extra_options(extra_vars)]
    returned; the two parameters of this easyblock are added to it. *)
Definition extra_options (base : gmap string (pyval * string * category))
  : gmap string (pyval * string * category) :=
  <["post_install_cmd" :=
      (VNone, "Commands after install: pip install, cpanm install, etc", CUSTOM)]>
    (<["environment" := (VStr "environment.yml", "Environment.yml file", MANDATORY)]> base).

(** [make_module_req_guess] *)
Definition make_module_req_guess (self : easyblock) : gmap string (list string) :=
  list_to_map
    [ ("PATH", ["bin"; "sbin"]);
      ("MANPATH", ["man"; os_path_join "share" "man"]);
      ("PKG_CONFIG_PATH",
        (λ x, os_path_join x "pkgconfig") <$> ["lib"; "lib32"; "lib64"; "share"]) ].

(** Modelled from the spec: [self.cfg] is the framework's configuration
    object, whose class is not part of this source tree.  It maps keys to
    values, and reading a key that is absent fails with a configuration
    error. *)
Definition cfg_get (self : easyblock) (key : string) : M pyval :=
  match cfg self !! key with
  | Some v => mret v
  | None => raise (EasyBuildError ("Use of unknown easyconfig parameter '" +:+ key +:+ "'"))
  end.

(** [set_conda_env] *)
Definition set_conda_env (self : easyblock) : M unit :=
  myEnv ← os_environ_copy;
  p ← dict_get myEnv "PATH";
  setvar "PATH" (((installdir self +:+ "/bin") +:+ ":") +:+ p);;
  setvar "CONDA_ENV" (installdir self);;
  setvar "CONDA_DEFAULT_ENV" (installdir self).

(** The body of the loop of [extract_step], for one descriptor. *)
Definition stage_source (self : easyblock) (source : loc) : M unit :=
  s ← descr_get source "path";
  n ← descr_get source "name";
  dst ← os_path_join_val (builddir self) n;
  try_except_fs
    (shutil_copy2 s (builddir self);;
     os_chmod dst S_IRWXU)
    (λ err, raise (EasyBuildError
       ("Couldn't copy " +:+ py_str s +:+ " to " +:+ builddir self +:+ ": " +:+ str_exn err))).

(** [extract_step] *)
Definition extract_step (self : easyblock) : M unit :=
  match src self with
  | [] => mret tt
  | first :: _ =>
      descr_set first "finalpath" (VStr (builddir self));;
      for_each (src self) (stage_source self)
  end.

(** [configure_step], [build_step] *)
Definition configure_step (self : easyblock) : M unit := mret tt.
Definition build_step (self : easyblock) : M unit := mret tt.

Section Commands.

(** What an external command does: from the command line, the environment
    it is started in and the file system, its exit status, its captured
    output and the file system it leaves behind. *)
Variable exec : string → gmap string string → gmap string node → Z * string * gmap string node.

(** Modelled from the spec: [easybuild.tools.run.run_cmd] is framework code
    that is not part of this source tree.  It runs the command
    synchronously in the environment of the calling process, captures and
    logs its output, and fails with an error that carries the command, the
    exit status and the output when the command exits non-zero. *)
Definition run_cmd (cmd : pyval) (log_all simple : bool) : M cmd_result :=
  match cmd with
  | VNone => raise (TypeError "command is not a string")
  | VStr c => λ w,
      let '(ec, out, f') := exec c (environ w) (fs w) in
      let w' := mkWorld (environ w) f' (heap w) (trace w ++ [ECmd c (environ w)])
                  (logged w ++ [(if log_all then LvlInfo else LvlDebug, out, [])]) in
      if (ec =? 0)%Z
      then (Ok (if simple then RSimple true else RFull out ec), w')
      else (Raise (EasyBuildError (cmd_error_msg c ec out)), w')
  end.

Definition conda_config_cmd : string :=
  "conda config --add create_default_packages setuptools".

(** [initialize_conda_env] *)
Definition initialize_conda_env (self : easyblock) : M unit :=
  rmtree2 (installdir self);;
  let cmd := conda_config_cmd in
  run_cmd (VStr cmd) true true;;
  mret tt.

(** [install_conda_env] *)
Definition install_conda_env (self : easyblock) : M unit :=
  set_conda_env self;;
  e ← cfg_get self "environment";
  let cmd := "conda env create -f " +:+ py_str e +:+ " -p " +:+ installdir self in
  run_cmd (VStr cmd) true true;;
  log LvlInfo "Installed conda env" [].

(** [post_install_step] *)
Definition post_install_step (self : easyblock) : M unit :=
  c ← cfg_get self "post_install_cmd";
  if negb (truthy c) then mret tt
  else
    a ← cfg_get self "post_install_cmd";
    log LvlDebug "Post command run" [a];;
    set_conda_env self;;
    cmd ← cfg_get self "post_install_cmd";
    run_cmd cmd false false;;
    m ← cfg_get self "post_install_cmd";
    log LvlInfo ("Post command run " +:+ py_str m) [].

(** [install_step] *)
Definition install_step (self : easyblock) : M unit :=
  initialize_conda_env self;;
  install_conda_env self;;
  post_install_step self.

End Commands.

(** ** Vocabulary of the statements *)

(** The environment after [set_conda_env], when [PATH] was bound to [p]. *)
Definition overlay (d p : string) (env : gmap string string) : gmap string string :=
  <["CONDA_DEFAULT_ENV" := d]>
    (<["CONDA_ENV" := d]> (<["PATH" := ((d +:+ "/bin") +:+ ":") +:+ p]> env)).

Definition with_environ (w : world) (env : gmap string string) : world :=
  mkWorld env (fs w) (heap w) (trace w) (logged w).

(** The overlay as the specification describes it. *)
Definition overlay_applied (d : string) (env : gmap string string) : Prop :=
  env !! "CONDA_ENV" = Some d ∧
  env !! "CONDA_DEFAULT_ENV" = Some d ∧
  ∃ p, env !! "PATH" = Some (d +:+ "/bin:" +:+ p).

(** A computation that never touches the descriptor dictionaries. *)
Definition heap_preserving {A} (m : M A) : Prop := ∀ w, heap (m w).2 = heap w.

(** The two file operations of the loop body. *)
Definition copy_and_chmod (self : easyblock) (s : pyval) (dst : string) : M unit :=
  shutil_copy2 s (builddir self);;
  os_chmod dst S_IRWXU.

(** [part] occurs in [msg]. *)
Definition surfaces (part msg : string) : Prop :=
  ∃ pre post, msg = pre +:+ part +:+ post.

(** Every shell-out among [evs] was started in an environment that has the
    overlay for the install directory [d]. *)
Definition shellouts_overlaid (d : string) (evs : list event) : Prop :=
  Forall (λ ev, match ev with
                | ECmd _ env => overlay_applied d env
                | _ => True
                end) evs.

(** Nothing at or below [d] exists. *)
Definition absent (d : string) (f : gmap string node) : Prop :=
  ∀ p, under d p = true → f !! p = None.

(** The command line of the Environment Builder. *)
Definition conda_create_cmd (self : easyblock) (e : pyval) : string :=
  "conda env create -f " +:+ py_str e +:+ " -p " +:+ installdir self.

(** ** Concrete runs *)

Module Demo.

Definition exec_ok : string → gmap string string → gmap string node → Z * string * gmap string node :=
  λ _ _ f, (0, "done", f).

Definition exec_fail : string → gmap string string → gmap string node → Z * string * gmap string node :=
  λ _ _ f, (1, "boom", f).

Definition file0 : file := mkFile "#!/bin/sh" 420 1000.

Definition fs0 : gmap string node :=
  list_to_map
    [ ("/build", NDir);
      ("/dl/tool.sh", NFile file0);
      ("/opt/env", NDir);
      ("/opt/env/bin/python", NFile (mkFile "ELF" 493 7)) ].

Definition env0 : gmap string string := {[ "PATH" := "/usr/bin" ]}.

Definition heap0 : loc → gmap string pyval := λ l,
  match l with
  | O => list_to_map [("name", VStr "/dl/tool.sh"); ("path", VStr "/dl/tool.sh")]
  | _ => list_to_map [("name", VStr "tool.sh"); ("path", VStr "/dl/tool.sh")]
  end.

Definition w0 : world := mkWorld env0 fs0 heap0 [] [].

Definition self0 : easyblock :=
  mkEasyblock
    (list_to_map [("environment", VStr "environment.yml"); ("post_install_cmd", VStr "pip install x")])
    "/opt/env" "/build" [1%nat].

Definition self_nopost : easyblock :=
  mkEasyblock
    (list_to_map [("environment", VStr "environment.yml"); ("post_install_cmd", VNone)])
    "/opt/env" "/build" [1%nat].

Definition self_noenv : easyblock :=
  mkEasyblock (list_to_map [("post_install_cmd", VNone)]) "/opt/env" "/build" [1%nat].

(** The worlds after the first and after the second step of
    [install_step exec_ok self0 w0]. *)
Definition w1 : world := (initialize_conda_env exec_ok self0 w0).2.
Definition w2 : world := (install_conda_env exec_ok self0 w1).2.

Definition self_abs : easyblock := mkEasyblock ∅ "/opt/env" "/build" [0%nat].

Definition self2 : easyblock := mkEasyblock ∅ "/opt/env" "/build" [0%nat; 1%nat].

End Demo.

(** A string of printable ASCII characters without single quote or
    backslash: [repr] only puts it between single quotes. *)
Definition repr_plain_char (c : ascii) : bool :=
  negb (Ascii.eqb c squote) && negb (Ascii.eqb c backslash)
  && (32 <=? N_of_ascii c)%N && (N_of_ascii c <? 127)%N.

Fixpoint repr_plain (s : string) : bool :=
  match s with
  | EmptyString => true
  | String c r => repr_plain_char c && repr_plain r
  end.

(** A file operation of the Source Stager. *)
Definition is_file_event (ev : event) : Prop :=
  match ev with
  | ECopy2 _ _ | EChmod _ _ => True
  | _ => False
  end.

(** A computation that leaves the process environment and the log alone and
    whose only external actions are file operations. *)
Definition stager_frame {A} (m : M A) : Prop :=
  ∀ w, environ (m w).2 = environ w ∧
       logged (m w).2 = logged w ∧
       ∃ evs, trace (m w).2 = (trace w ++ evs)%list ∧ Forall is_file_event evs.

(** The easyblock with another list of sources. *)
Definition with_src (self : easyblock) (l : list loc) : easyblock :=
  mkEasyblock (cfg self) (installdir self) (builddir self) l.

(** The world in which the loop of [extract_step] starts. *)
Definition finalpath_set (self : easyblock) (first : loc) (w : world) : world :=
  (descr_set first "finalpath" (VStr (builddir self)) w).2.

(** ** Further concrete runs *)

Module Cases.

Definition self_nosrc : easyblock := mkEasyblock ∅ "/opt/env" "/build" [].

Definition fs_x : gmap string node :=
  list_to_map
    [ ("/build", NDir);
      ("/build/staged.sh", NFile (mkFile "echo" 420 5));
      ("/dl/tool.sh", NFile Demo.file0) ].

Definition heap_x : loc → gmap string pyval := λ l,
  match l with
  | 1%nat => list_to_map [("name", VStr "gone.sh"); ("path", VStr "/dl/gone.sh")]
  | 2%nat => list_to_map [("name", VStr "tool.sh")]
  | 3%nat => list_to_map [("name", VStr "staged.sh"); ("path", VStr "/build/staged.sh")]
  | _ => list_to_map [("name", VStr "tool.sh"); ("path", VStr "/dl/tool.sh")]
  end.

Definition w_x : world := mkWorld Demo.env0 fs_x heap_x [] [].

(** A process without [PATH]. *)
Definition w_nopath : world := mkWorld ∅ Demo.fs0 Demo.heap0 [] [].

Definition self_x (l : list loc) : easyblock := mkEasyblock ∅ "/opt/env" "/build" l.

(** [conda config] succeeds, every other command fails. *)
Definition exec_create_fails
  : string → gmap string string → gmap string node → Z * string * gmap string node :=
  λ c _ f, if String.eqb c conda_config_cmd then (0, "ok", f) else (2, "no yml", f).

End Cases.

(** ** Basic facts about the monad and the primitives *)

Lemma bind_unfold {A B} (m : M A) (f : A → M B) (w : world) :
  (m ≫= f) w =
  match m w with
  | (Ok x, w') => f x w'
  | (Raise e, w') => (Raise e, w')
  end.
Proof. reflexivity. Qed.

Lemma bind_ok {A B} (m : M A) (f : A → M B) (w w' : world) (x : A) :
  m w = (Ok x, w') → (m ≫= f) w = f x w'.
Proof. intros H. rewrite bind_unfold, H. reflexivity. Qed.

Lemma bind_raise {A B} (m : M A) (f : A → M B) (w w' : world) (e : exn) :
  m w = (Raise e, w') → (m ≫= f) w = (Raise e, w').
Proof. intros H. rewrite bind_unfold, H. reflexivity. Qed.

Lemma fs_stat_file (f : gmap string node) (p : string) (x : file) :
  f !! p = Some (NFile x) → fs_stat f p = SFile x.
Proof. intros H. unfold fs_stat. rewrite H. reflexivity. Qed.

Lemma truthy_false (v : pyval) :
  truthy v = false ↔ v = VNone ∨ v = VStr EmptyString.
Proof.
  split.
  - destruct v as [|[|c s]]; simpl; intros H; auto; discriminate.
  - intros [-> | ->]; reflexivity.
Qed.

Lemma set_conda_env_ok (self : easyblock) (w : world) (p : string) :
  environ w !! "PATH" = Some p →
  set_conda_env self w = (Ok tt, with_environ w (overlay (installdir self) p (environ w))).
Proof.
  intros H. unfold set_conda_env, os_environ_copy, dict_get.
  rewrite bind_unfold. simpl. rewrite H. reflexivity.
Qed.

Lemma set_conda_env_raise (self : easyblock) (w : world) :
  environ w !! "PATH" = None →
  set_conda_env self w = (Raise (KeyError "PATH"), w).
Proof.
  intros H. unfold set_conda_env, os_environ_copy, dict_get.
  rewrite bind_unfold. simpl. rewrite H. reflexivity.
Qed.

Lemma append_cons (x : ascii) (a b : string) : String x a +:+ b = String x (a +:+ b).
Proof. reflexivity. Qed.

Lemma append_assoc (a b c : string) : (a +:+ b) +:+ c = a +:+ (b +:+ c).
Proof.
  induction a as [|x a IH]; [reflexivity|].
  rewrite !append_cons. f_equal. exact IH.
Qed.

Lemma overlay_path (d p : string) :
  ((d +:+ "/bin") +:+ ":") +:+ p = d +:+ "/bin:" +:+ p.
Proof. rewrite !append_assoc. reflexivity. Qed.

Lemma overlay_is_applied (d p : string) (env : gmap string string) :
  overlay_applied d (overlay d p env).
Proof.
  unfold overlay_applied, overlay. split_and!.
  - by simplify_map_eq.
  - by simplify_map_eq.
  - exists p. rewrite <- overlay_path. by simplify_map_eq.
Qed.

(** ** The Post-Install Runner without a command *)

Lemma post_install_falsy_returns
    (exec : string → gmap string string → gmap string node → Z * string * gmap string node)
    (self : easyblock) (w : world) (v : pyval) :
  cfg self !! "post_install_cmd" = Some v →
  v = VNone ∨ v = VStr EmptyString →
  post_install_step exec self w = (Ok tt, w).
Proof.
  intros Hcfg Hv. apply truthy_false in Hv.
  unfold post_install_step. rewrite bind_unfold.
  unfold cfg_get at 1. rewrite Hcfg. simpl. rewrite Hv. reflexivity.
Qed.

(** C7: when [post_install_cmd] is [None] or the empty string,
    [post_install_step] succeeds and leaves the whole world as it was: no
    command is run (the trace is unchanged) and no environment variable is
    touched. *)
Theorem post_install_step_unset_noop
    (exec : string → gmap string string → gmap string node → Z * string * gmap string node)
    (self : easyblock) (w : world) (v : pyval) :
  cfg self !! "post_install_cmd" = Some v →
  v = VNone ∨ v = VStr EmptyString →
  post_install_step exec self w = (Ok tt, w).
Proof.
  intros Hcfg Hv.
  assert (Hfalsy : truthy v = false) by (destruct Hv as [-> | ->]; reflexivity).
  unfold post_install_step.
  erewrite bind_ok by (unfold cfg_get; rewrite Hcfg; reflexivity).
  rewrite Hfalsy. reflexivity.
Qed.

Lemma post_install_step_unset_noop_witness :
  post_install_step Demo.exec_ok Demo.self_nopost Demo.w0 = (Ok tt, Demo.w0).
Proof.
  apply (post_install_step_unset_noop Demo.exec_ok Demo.self_nopost Demo.w0 VNone).
  - reflexivity.
  - left. reflexivity.
Defined.

(** ** The Environment Builder without an [environment] key *)

(** C1: when the configuration has no [environment] key,
    [install_conda_env] raises, and it does so without any external action:
    the trace (shell commands included) and the file system are as
    before. *)
Theorem install_conda_env_missing_environment
    (exec : string → gmap string string → gmap string node → Z * string * gmap string node)
    (self : easyblock) (w : world) :
  cfg self !! "environment" = None →
  ∃ e, (install_conda_env exec self w).1 = Raise e ∧
       trace (install_conda_env exec self w).2 = trace w ∧
       fs (install_conda_env exec self w).2 = fs w.
Proof.
  intros Hcfg. unfold install_conda_env. rewrite bind_unfold.
  destruct (environ w !! "PATH") as [p|] eqn:Hp.
  - rewrite (set_conda_env_ok self w p Hp).
    rewrite bind_unfold. unfold cfg_get. rewrite Hcfg. simpl.
    eexists. split_and!; reflexivity.
  - rewrite (set_conda_env_raise self w Hp). simpl.
    eexists. split_and!; reflexivity.
Qed.

Lemma install_conda_env_missing_environment_witness :
  ∃ e, (install_conda_env Demo.exec_ok Demo.self_noenv Demo.w0).1 = Raise e ∧
       trace (install_conda_env Demo.exec_ok Demo.self_noenv Demo.w0).2 = trace Demo.w0 ∧
       fs (install_conda_env Demo.exec_ok Demo.self_noenv Demo.w0).2 = fs Demo.w0.
Proof.
  apply (install_conda_env_missing_environment Demo.exec_ok Demo.self_noenv Demo.w0).
  reflexivity.
Defined.

(** ** Module metadata *)

(** C8: [make_module_req_guess] returns the same mapping for every
    easyblock: exactly the keys PATH, MANPATH and PKG_CONFIG_PATH, each with
    its fixed list of candidate subdirectories. *)
Theorem make_module_req_guess_fixed (self : easyblock) :
  make_module_req_guess self =
    {[ "PATH" := ["bin"; "sbin"];
       "MANPATH" := ["man"; "share/man"];
       "PKG_CONFIG_PATH" :=
         ["lib/pkgconfig"; "lib32/pkgconfig"; "lib64/pkgconfig"; "share/pkgconfig"] ]} ∧
  dom (make_module_req_guess self) = {[ "PATH"; "MANPATH"; "PKG_CONFIG_PATH" ]} ∧
  ∀ other : easyblock, make_module_req_guess other = make_module_req_guess self.
Proof.
  split_and!.
  - vm_compute. reflexivity.
  - vm_compute. reflexivity.
  - intros other. reflexivity.
Qed.

(** ** The Source Stager *)

Lemma hp_ret {A} (x : A) : heap_preserving (mret x : M A).
Proof. intros w. reflexivity. Qed.

Lemma hp_raise {A} (e : exn) : heap_preserving (raise e : M A).
Proof. intros w. reflexivity. Qed.

Lemma hp_bind {A B} (m : M A) (f : A → M B) :
  heap_preserving m → (∀ x, heap_preserving (f x)) → heap_preserving (m ≫= f).
Proof.
  intros Hm Hf w. rewrite bind_unfold. specialize (Hm w).
  destruct (m w) as [[x|e] w1]; simpl in *.
  - rewrite Hf. exact Hm.
  - exact Hm.
Qed.

Lemma hp_try {A} (m : M A) (h : exn → M A) :
  heap_preserving m → (∀ e, heap_preserving (h e)) → heap_preserving (try_except_fs m h).
Proof.
  intros Hm Hh w. unfold try_except_fs. specialize (Hm w).
  destruct (m w) as [[x|e] w1]; simpl in *; [exact Hm|].
  destruct (is_fs_error e); simpl; [rewrite Hh|]; exact Hm.
Qed.

Lemma hp_for_each {A} (xs : list A) (body : A → M unit) :
  (∀ x, heap_preserving (body x)) → heap_preserving (for_each xs body).
Proof.
  intros Hb. induction xs as [|x xs IH]; simpl.
  - apply hp_ret.
  - apply hp_bind; [apply Hb | intros _; exact IH].
Qed.

Lemma hp_emit (e : event) : heap_preserving (emit e).
Proof. intros w. reflexivity. Qed.

Lemma hp_get_fs : heap_preserving get_fs.
Proof. intros w. reflexivity. Qed.

Lemma hp_put_fs (f : gmap string node) : heap_preserving (put_fs f).
Proof. intros w. reflexivity. Qed.

Lemma hp_descr_get (l : loc) (k : string) : heap_preserving (descr_get l k).
Proof. intros w. unfold descr_get. destruct (heap w l !! k); reflexivity. Qed.

Create HintDb hp.
#[local] Hint Resolve hp_ret hp_raise hp_emit hp_get_fs hp_put_fs hp_descr_get : hp.

Lemma hp_shutil_copy2 (s : pyval) (dst : string) : heap_preserving (shutil_copy2 s dst).
Proof.
  destruct s as [|s]; simpl.
  - apply hp_bind; [auto with hp|]. intros f. destruct (is_dir f dst); auto with hp.
  - apply hp_bind; [auto with hp|]. intros _.
    apply hp_bind; [auto with hp|]. intros f.
    repeat case_match; auto with hp.
Qed.

Lemma hp_os_chmod (path : string) (perm : Z) : heap_preserving (os_chmod path perm).
Proof.
  unfold os_chmod. apply hp_bind; [auto with hp|]. intros _.
  apply hp_bind; [auto with hp|]. intros f.
  repeat case_match; auto with hp.
Qed.

Lemma hp_stage_source (self : easyblock) (l : loc) : heap_preserving (stage_source self l).
Proof.
  unfold stage_source.
  apply hp_bind; [auto with hp|]. intros s.
  apply hp_bind; [auto with hp|]. intros n.
  apply hp_bind; [destruct n; simpl; auto with hp|]. intros dst.
  apply hp_try.
  - apply hp_bind; [apply hp_shutil_copy2 | intros _; apply hp_os_chmod].
  - intros e. auto with hp.
Qed.

(** C10: with at least one descriptor, [extract_step] changes exactly one
    dictionary, the one [self.src[0]] refers to, and there only the key
    [finalpath], which becomes the build directory.  Every other dictionary
    and every other key of the first one is as before, whether staging
    succeeds or raises. *)
Theorem extract_step_mutates_first_only
    (self : easyblock) (w : world) (first : loc) (rest : list loc) :
  src self = first :: rest →
  heap (extract_step self w).2 first
    = <["finalpath" := VStr (builddir self)]> (heap w first) ∧
  (∀ l, l ≠ first → heap (extract_step self w).2 l = heap w l) ∧
  (∀ k, k ≠ "finalpath" → heap (extract_step self w).2 first !! k = heap w first !! k).
Proof.
  intros Hsrc.
  assert (Hheap : heap (extract_step self w).2
            = <[first := <["finalpath" := VStr (builddir self)]> (heap w first)]> (heap w)).
  { unfold extract_step. rewrite Hsrc.
    erewrite bind_ok by (unfold descr_set; reflexivity).
    rewrite (hp_for_each _ _ (hp_stage_source self)). reflexivity. }
  rewrite Hheap. split_and!.
  - apply fn_lookup_insert.
  - intros l Hl. by apply fn_lookup_insert_ne.
  - intros k Hk. rewrite fn_lookup_insert. by apply lookup_insert_ne.
Qed.

Lemma extract_step_mutates_first_only_witness :
  heap (extract_step Demo.self2 Demo.w0).2 0%nat
    = <["finalpath" := VStr "/build"]> (Demo.heap0 0%nat) ∧
  (∀ l, l ≠ 0%nat → heap (extract_step Demo.self2 Demo.w0).2 l = Demo.heap0 l) ∧
  (∀ k, k ≠ "finalpath" →
     heap (extract_step Demo.self2 Demo.w0).2 0%nat !! k = Demo.heap0 0%nat !! k).
Proof.
  apply (extract_step_mutates_first_only Demo.self2 Demo.w0 0%nat [1%nat]).
  reflexivity.
Defined.

(** The loop stops at the first descriptor whose staging raises: the
    descriptors after it have no influence on the outcome. *)
Lemma for_each_abort {A} (xs ys : list A) (x : A) (body : A → M unit)
    (w w1 w2 : world) (e : exn) :
  for_each xs body w = (Ok tt, w1) →
  body x w1 = (Raise e, w2) →
  for_each (xs ++ x :: ys) body w = (Raise e, w2).
Proof.
  revert w. induction xs as [|a xs IH]; intros w Hxs Hx; simpl in *.
  - injection Hxs as <-. by rewrite bind_unfold, Hx.
  - rewrite bind_unfold in *. destruct (body a w) as [[[]|e'] w'].
    + by apply IH.
    + discriminate.
Qed.

(** An [OSError] or [IOError] from the copy or from the permission change
    becomes an [EasyBuildError] whose message ends with the text of the
    underlying error. *)
Lemma stage_source_fs_error (self : easyblock) (l : loc) (w w' : world)
    (s : pyval) (n : string) (e : exn) :
  heap w l !! "path" = Some s →
  heap w l !! "name" = Some (VStr n) →
  copy_and_chmod self s (os_path_join (builddir self) n) w = (Raise e, w') →
  is_fs_error e = true →
  stage_source self l w =
    (Raise (EasyBuildError
       ("Couldn't copy " +:+ py_str s +:+ " to " +:+ builddir self +:+ ": " +:+ str_exn e)), w').
Proof.
  intros Hp Hn Hbody He. unfold stage_source.
  erewrite bind_ok by (unfold descr_get; rewrite Hp; reflexivity).
  erewrite bind_ok by (unfold descr_get; rewrite Hn; reflexivity).
  erewrite bind_ok by reflexivity.
  unfold try_except_fs. fold (copy_and_chmod self s (os_path_join (builddir self) n)).
  rewrite Hbody, He. reflexivity.
Qed.

(** Any other exception of the body is not caught. *)
Lemma stage_source_other_error (self : easyblock) (l : loc) (w w' : world)
    (s : pyval) (n : string) (e : exn) :
  heap w l !! "path" = Some s →
  heap w l !! "name" = Some (VStr n) →
  copy_and_chmod self s (os_path_join (builddir self) n) w = (Raise e, w') →
  is_fs_error e = false →
  stage_source self l w = (Raise e, w').
Proof.
  intros Hp Hn Hbody He. unfold stage_source.
  erewrite bind_ok by (unfold descr_get; rewrite Hp; reflexivity).
  erewrite bind_ok by (unfold descr_get; rewrite Hn; reflexivity).
  erewrite bind_ok by reflexivity.
  unfold try_except_fs. fold (copy_and_chmod self s (os_path_join (builddir self) n)).
  rewrite Hbody, He. reflexivity.
Qed.

(** A descriptor whose [name] is the basename of its [path] is staged as
    intended: the copy in the build directory has the content and the
    modification time of the source and mode [S_IRWXU]. *)
Lemma stage_source_basename_ok (self : easyblock) (l : loc) (w : world)
    (s : string) (x : file) :
  let target := os_path_join (builddir self) (os_path_basename s) in
  heap w l !! "path" = Some (VStr s) →
  heap w l !! "name" = Some (VStr (os_path_basename s)) →
  is_dir (fs w) (builddir self) = true →
  fs w !! s = Some (NFile x) →
  s ≠ target →
  is_dir (fs w) target = false →
  stage_source self l w =
    (Ok tt,
     mkWorld (environ w)
       (<[target := NFile (mkFile (content x) S_IRWXU (mtime x))]> (fs w))
       (heap w)
       (trace w ++ [ECopy2 s (builddir self); EChmod target S_IRWXU])
       (logged w)).
Proof.
  intros target Hp Hn Hdir Hs Hne Htd. unfold stage_source.
  erewrite bind_ok by (unfold descr_get; rewrite Hp; reflexivity).
  erewrite bind_ok by (unfold descr_get; rewrite Hn; reflexivity).
  erewrite bind_ok by reflexivity.
  fold target. unfold try_except_fs, shutil_copy2, os_chmod.
  rewrite !bind_unfold. simpl. rewrite !bind_unfold. simpl.
  rewrite Hdir. fold target. rewrite (fs_stat_file _ _ _ Hs).
  apply String.eqb_neq in Hne. rewrite Hne, Htd. simpl.
  rewrite !bind_unfold. simpl. rewrite bind_unfold. simpl.
  rewrite (fs_stat_file _ target x) by apply lookup_insert_eq. simpl.
  rewrite insert_insert_eq, <- app_assoc. reflexivity.
Qed.

(** C5: the descriptor [{'name': '/dl/tool.sh', 'path': '/dl/tool.sh'}]
    (a source given by an absolute path) is copied to [/build/tool.sh], but
    the permission change goes to [os.path.join(builddir, name)], which is
    the source file itself.  [extract_step] succeeds, the copy keeps mode
    0644 and the original gets [S_IRWXU]. *)
Theorem extract_step_chmod_misses_copy :
  (extract_step Demo.self_abs Demo.w0).1 = Ok tt ∧
  trace (extract_step Demo.self_abs Demo.w0).2
    = [ECopy2 "/dl/tool.sh" "/build"; EChmod "/dl/tool.sh" S_IRWXU] ∧
  fs (extract_step Demo.self_abs Demo.w0).2 !! "/build/tool.sh"
    = Some (NFile (mkFile "#!/bin/sh" 420 1000)) ∧
  fs (extract_step Demo.self_abs Demo.w0).2 !! "/dl/tool.sh"
    = Some (NFile (mkFile "#!/bin/sh" S_IRWXU 1000)).
Proof. split_and!; vm_compute; reflexivity. Qed.

(** ** Shell-outs *)

Lemma append_nil_r (s : string) : s +:+ EmptyString = s.
Proof. induction s as [|x s IH]; [reflexivity|]. rewrite append_cons. by f_equal. Qed.

Lemma length_append (a b : string) :
  String.length (a +:+ b) = (String.length a + String.length b)%nat.
Proof. induction a as [|x a IH]; [reflexivity|]. rewrite append_cons. simpl. by f_equal. Qed.

Lemma cmd_error_msg_surfaces (c : string) (ec : Z) (out : string) :
  surfaces c (cmd_error_msg c ec out) ∧
  surfaces (pretty ec) (cmd_error_msg c ec out) ∧
  surfaces out (cmd_error_msg c ec out).
Proof.
  unfold surfaces, cmd_error_msg. split_and!.
  - exists "cmd ", (" exited with exitcode " +:+ pretty ec +:+ " and output: " +:+ out).
    reflexivity.
  - exists ("cmd " +:+ c +:+ " exited with exitcode "), (" and output: " +:+ out).
    by rewrite !append_assoc.
  - exists ("cmd " +:+ c +:+ " exited with exitcode " +:+ pretty ec +:+ " and output: "),
      EmptyString.
    by rewrite append_nil_r, !append_assoc.
Qed.

Lemma truthy_nonempty (c : string) : c ≠ EmptyString → truthy (VStr c) = true.
Proof. destruct c; [congruence | reflexivity]. Qed.

Lemma filter_under_absent (d : string) (f : gmap string node) :
  absent d (filter (λ kv, under d kv.1 = false) f).
Proof.
  intros p Hp. apply map_lookup_filter_None. right. intros x _. simpl. congruence.
Qed.

Lemma filter_under_frame (d p : string) (f : gmap string node) :
  under d p = false → filter (λ kv, under d kv.1 = false) f !! p = f !! p.
Proof.
  intros Hp. destruct (f !! p) as [x|] eqn:Hf.
  - apply map_lookup_filter_Some. auto.
  - apply map_lookup_filter_None. auto.
Qed.

Section Install.

Variable exec : string → gmap string string → gmap string node → Z * string * gmap string node.
Variable self : easyblock.

Lemma run_cmd_ok (c : string) (la s : bool) (w : world) (out : string) (f' : gmap string node) :
  exec c (environ w) (fs w) = (0, out, f') →
  run_cmd exec (VStr c) la s w =
    (Ok (if s then RSimple true else RFull out 0),
     mkWorld (environ w) f' (heap w) (trace w ++ [ECmd c (environ w)])
       (logged w ++ [(if la then LvlInfo else LvlDebug, out, [])])).
Proof. intros H. unfold run_cmd. rewrite H. reflexivity. Qed.

Lemma run_cmd_fail (c : string) (la s : bool) (w : world) (ec : Z) (out : string)
    (f' : gmap string node) :
  exec c (environ w) (fs w) = (ec, out, f') →
  ec ≠ 0 →
  run_cmd exec (VStr c) la s w =
    (Raise (EasyBuildError (cmd_error_msg c ec out)),
     mkWorld (environ w) f' (heap w) (trace w ++ [ECmd c (environ w)])
       (logged w ++ [(if la then LvlInfo else LvlDebug, out, [])])).
Proof.
  intros H Hec. unfold run_cmd. rewrite H.
  apply Z.eqb_neq in Hec. rewrite Hec. reflexivity.
Qed.

(** [run_cmd] appends one shell-out, started in the current environment,
    and leaves the environment alone. *)
Lemma run_cmd_trace (c : string) (la s : bool) (w : world) :
  trace (run_cmd exec (VStr c) la s w).2 = (trace w ++ [ECmd c (environ w)])%list ∧
  environ (run_cmd exec (VStr c) la s w).2 = environ w.
Proof.
  unfold run_cmd. destruct (exec c (environ w) (fs w)) as [[ec out] f'].
  destruct (ec =? 0)%Z; split; reflexivity.
Qed.

(** The Environment Initializer in closed form. *)
Lemma initialize_conda_env_run (w : world) :
  initialize_conda_env exec self w =
    let f1 := filter (λ kv, under (installdir self) kv.1 = false) (fs w) in
    let '(ec, out, f2) := exec conda_config_cmd (environ w) f1 in
    (if (ec =? 0)%Z then Ok tt
     else Raise (EasyBuildError (cmd_error_msg conda_config_cmd ec out)),
     mkWorld (environ w) f2 (heap w)
       (trace w ++ [ERmtree (installdir self); ECmd conda_config_cmd (environ w)])
       (logged w ++ [(LvlInfo, out, [])])).
Proof.
  unfold initialize_conda_env, rmtree2. rewrite !bind_unfold. simpl.
  rewrite !bind_unfold. simpl.
  destruct (exec conda_config_cmd (environ w) _) as [[ec out] f2].
  destruct (ec =? 0)%Z; simpl; rewrite <- app_assoc; reflexivity.
Qed.

(** The Environment Builder when [PATH] is bound and [environment] is
    configured: one shell-out, in the overlaid environment. *)
Lemma install_conda_env_run (w : world) (e : pyval) (p : string) :
  cfg self !! "environment" = Some e →
  environ w !! "PATH" = Some p →
  install_conda_env exec self w =
    let env' := overlay (installdir self) p (environ w) in
    let '(ec, out, f2) := exec (conda_create_cmd self e) env' (fs w) in
    if (ec =? 0)%Z
    then (Ok tt,
          mkWorld env' f2 (heap w) (trace w ++ [ECmd (conda_create_cmd self e) env'])
            ((logged w ++ [(LvlInfo, out, [])]) ++ [(LvlInfo, "Installed conda env", [])]))
    else (Raise (EasyBuildError (cmd_error_msg (conda_create_cmd self e) ec out)),
          mkWorld env' f2 (heap w) (trace w ++ [ECmd (conda_create_cmd self e) env'])
            (logged w ++ [(LvlInfo, out, [])])).
Proof.
  intros Hcfg Hp. unfold install_conda_env.
  erewrite bind_ok by (apply set_conda_env_ok; exact Hp).
  erewrite bind_ok by (unfold cfg_get; rewrite Hcfg; reflexivity).
  fold (conda_create_cmd self e). rewrite bind_unfold. unfold run_cmd. simpl.
  destruct (exec (conda_create_cmd self e) _ (fs w)) as [[ec out] f2].
  destruct (ec =? 0)%Z; reflexivity.
Qed.

(** The Post-Install Runner when a command is configured and [PATH] is
    bound: one shell-out, in the overlaid environment. *)
Lemma post_install_step_run (w : world) (c p : string) :
  cfg self !! "post_install_cmd" = Some (VStr c) →
  c ≠ EmptyString →
  environ w !! "PATH" = Some p →
  post_install_step exec self w =
    let env' := overlay (installdir self) p (environ w) in
    let '(ec, out, f2) := exec c env' (fs w) in
    if (ec =? 0)%Z
    then (Ok tt,
          mkWorld env' f2 (heap w) (trace w ++ [ECmd c env'])
            (((logged w ++ [(LvlDebug, "Post command run", [VStr c])])
                ++ [(LvlDebug, out, [])])
                ++ [(LvlInfo, "Post command run " +:+ c, [])]))
    else (Raise (EasyBuildError (cmd_error_msg c ec out)),
          mkWorld env' f2 (heap w) (trace w ++ [ECmd c env'])
            ((logged w ++ [(LvlDebug, "Post command run", [VStr c])])
                ++ [(LvlDebug, out, [])])).
Proof.
  intros Hcfg Hc Hp. unfold post_install_step.
  erewrite bind_ok by (unfold cfg_get; rewrite Hcfg; reflexivity).
  rewrite (truthy_nonempty c Hc). simpl.
  erewrite bind_ok by (unfold cfg_get; rewrite Hcfg; reflexivity).
  erewrite bind_ok by reflexivity.
  erewrite bind_ok by (apply set_conda_env_ok; exact Hp).
  erewrite bind_ok by (unfold cfg_get; rewrite Hcfg; reflexivity).
  rewrite bind_unfold. unfold run_cmd. simpl.
  destruct (exec c _ (fs w)) as [[ec out] f2].
  destruct (ec =? 0)%Z; [|reflexivity].
  erewrite bind_ok by (unfold cfg_get; rewrite Hcfg; reflexivity).
  reflexivity.
Qed.

End Install.

Section InstallTraces.

Variable exec : string → gmap string string → gmap string node → Z * string * gmap string node.
Variable self : easyblock.

Lemma shellouts_overlaid_nil (d : string) : shellouts_overlaid d [].
Proof. constructor. Qed.

Lemma shellouts_overlaid_cmd (d c p : string) (env : gmap string string) :
  shellouts_overlaid d [ECmd c (overlay d p env)].
Proof. repeat constructor; apply overlay_is_applied. Qed.

(** Whatever the outcome, every shell-out of the Environment Builder runs
    in an overlaid environment. *)
Lemma install_conda_env_trace (w : world) :
  ∃ evs, trace (install_conda_env exec self w).2 = (trace w ++ evs)%list ∧
         shellouts_overlaid (installdir self) evs.
Proof.
  destruct (environ w !! "PATH") as [p|] eqn:Hp.
  - destruct (cfg self !! "environment") as [e|] eqn:Hcfg.
    + rewrite (install_conda_env_run exec self w e p Hcfg Hp). simpl.
      destruct (exec _ _ _) as [[ec out] f2].
      eexists. split; [|apply shellouts_overlaid_cmd].
      destruct (ec =? 0)%Z; reflexivity.
    + exists []. split; [|apply shellouts_overlaid_nil].
      unfold install_conda_env.
      erewrite bind_ok by (apply set_conda_env_ok; exact Hp).
      erewrite bind_raise by (unfold cfg_get; rewrite Hcfg; reflexivity).
      simpl. by rewrite app_nil_r.
  - exists []. split; [|apply shellouts_overlaid_nil].
    unfold install_conda_env.
    erewrite bind_raise by (apply set_conda_env_raise; exact Hp).
    simpl. by rewrite app_nil_r.
Qed.

(** The same for the Post-Install Runner. *)
Lemma post_install_step_trace (w : world) :
  ∃ evs, trace (post_install_step exec self w).2 = (trace w ++ evs)%list ∧
         shellouts_overlaid (installdir self) evs.
Proof.
  destruct (cfg self !! "post_install_cmd") as [v|] eqn:Hcfg.
  - destruct (truthy v) eqn:Hv.
    + destruct v as [|c]; [discriminate|].
      assert (Hc : c ≠ EmptyString) by (intros ->; discriminate).
      destruct (environ w !! "PATH") as [p|] eqn:Hp.
      * rewrite (post_install_step_run exec self w c p Hcfg Hc Hp). simpl.
        destruct (exec _ _ _) as [[ec out] f2].
        eexists. split; [|apply shellouts_overlaid_cmd].
        destruct (ec =? 0)%Z; reflexivity.
      * exists []. split; [|apply shellouts_overlaid_nil].
        unfold post_install_step.
        erewrite bind_ok by (unfold cfg_get; rewrite Hcfg; reflexivity).
        rewrite Hv. simpl.
        erewrite bind_ok by (unfold cfg_get; rewrite Hcfg; reflexivity).
        erewrite bind_ok by reflexivity.
        erewrite bind_raise by (apply set_conda_env_raise; exact Hp).
        simpl. by rewrite app_nil_r.
    + exists []. split; [|apply shellouts_overlaid_nil].
      apply truthy_false in Hv.
      rewrite (post_install_falsy_returns exec self w v Hcfg Hv).
      simpl. by rewrite app_nil_r.
  - exists []. split; [|apply shellouts_overlaid_nil].
    unfold post_install_step.
    erewrite bind_raise by (unfold cfg_get; rewrite Hcfg; reflexivity).
    simpl. by rewrite app_nil_r.
Qed.

End InstallTraces.

(** ** The install step *)

(** C2, as the code has it: in every run of [install_step] the first two
    external actions are the deletion of the install directory and the
    [conda config] shell-out, which is started in the environment as it was
    on entry; every shell-out after that ([conda env create], the
    post-install command) is started in an environment that has the overlay
    applied. *)
Theorem install_step_overlay_after_config
    (exec : string → gmap string string → gmap string node → Z * string * gmap string node)
    (self : easyblock) (w : world) :
  ∃ rest,
    trace (install_step exec self w).2
      = (trace w ++ ERmtree (installdir self)
                 :: ECmd conda_config_cmd (environ w) :: rest)%list ∧
    shellouts_overlaid (installdir self) rest.
Proof.
  unfold install_step. rewrite bind_unfold.
  rewrite initialize_conda_env_run. cbv zeta.
  destruct (exec conda_config_cmd _ _) as [[ec out] f2].
  destruct (ec =? 0)%Z.
  - set (w1 := mkWorld _ _ _ _ _). rewrite bind_unfold.
    destruct (install_conda_env_trace exec self w1) as (evs1 & Ht1 & Ho1).
    destruct (install_conda_env exec self w1) as [[[]|e] w2]; simpl in *.
    + destruct (post_install_step_trace exec self w2) as (evs2 & Ht2 & Ho2).
      exists (evs1 ++ evs2)%list. split.
      * rewrite Ht2, Ht1. unfold w1. simpl. by rewrite <- !app_assoc.
      * by apply Forall_app.
    + exists evs1. split; [|exact Ho1].
      rewrite Ht1. unfold w1. simpl. by rewrite <- !app_assoc.
  - exists []. split; [reflexivity | constructor].
Qed.

(** C2, as stated, fails: the [conda config] shell-out of a run that starts
    with [PATH=/usr/bin] only is started without [CONDA_ENV]. *)
Lemma install_step_config_not_overlaid :
  ¬ shellouts_overlaid (installdir Demo.self0)
      (trace (install_step Demo.exec_ok Demo.self0 Demo.w0).2).
Proof.
  intros H.
  assert (Ht : ∃ rest, trace (install_step Demo.exec_ok Demo.self0 Demo.w0).2
            = ERmtree "/opt/env" :: ECmd conda_config_cmd Demo.env0 :: rest).
  { eexists. vm_compute. reflexivity. }
  destruct Ht as (rest & Ht). rewrite Ht in H.
  apply Forall_cons in H as [_ H]. apply Forall_cons in H as [H _].
  destruct H as [H _]. clear Ht. vm_compute in H. discriminate H.
Qed.

(** C3, as the code has it: with [environment] configured as the string
    [f] and [PATH] bound, the only shell-out of [install_conda_env] is
    [conda env create -f f -p <installdir>], started in the overlaid
    environment.  The method returns after the command has exited:
    normally on exit status 0, and otherwise with an [EasyBuildError] whose
    message contains the captured output and the exit status. *)
Theorem install_conda_env_runs_create
    (exec : string → gmap string string → gmap string node → Z * string * gmap string node)
    (self : easyblock) (w : world) (f p : string)
    (ec : Z) (out : string) (f' : gmap string node) :
  cfg self !! "environment" = Some (VStr f) →
  environ w !! "PATH" = Some p →
  exec ("conda env create -f " +:+ f +:+ " -p " +:+ installdir self)
       (overlay (installdir self) p (environ w)) (fs w) = (ec, out, f') →
  trace (install_conda_env exec self w).2
    = (trace w ++
        [ECmd ("conda env create -f " +:+ f +:+ " -p " +:+ installdir self)
              (overlay (installdir self) p (environ w))])%list ∧
  (ec = 0 → (install_conda_env exec self w).1 = Ok tt) ∧
  (ec ≠ 0 →
     ∃ msg, (install_conda_env exec self w).1 = Raise (EasyBuildError msg) ∧
            surfaces out msg ∧ surfaces (pretty ec) msg).
Proof.
  intros Hcfg Hp Hexec.
  rewrite (install_conda_env_run exec self w (VStr f) p Hcfg Hp). cbv zeta.
  unfold conda_create_cmd. simpl py_str. rewrite Hexec. split_and!.
  - destruct (ec =? 0)%Z; reflexivity.
  - intros ->. reflexivity.
  - intros Hec. apply Z.eqb_neq in Hec. rewrite Hec.
    eexists. split; [reflexivity|].
    split; apply cmd_error_msg_surfaces.
Qed.

Lemma install_conda_env_runs_create_witness :
  trace (install_conda_env Demo.exec_fail Demo.self0 Demo.w0).2
    = (trace Demo.w0 ++
        [ECmd ("conda env create -f " +:+ "environment.yml" +:+ " -p " +:+ installdir Demo.self0)
              (overlay (installdir Demo.self0) "/usr/bin" (environ Demo.w0))])%list ∧
  (1 = 0 → (install_conda_env Demo.exec_fail Demo.self0 Demo.w0).1 = Ok tt) ∧
  (1 ≠ 0 →
     ∃ msg, (install_conda_env Demo.exec_fail Demo.self0 Demo.w0).1
              = Raise (EasyBuildError msg) ∧
            surfaces "boom" msg ∧ surfaces (pretty 1) msg).
Proof.
  apply (install_conda_env_runs_create Demo.exec_fail Demo.self0 Demo.w0
           "environment.yml" "/usr/bin" 1 "boom" (fs Demo.w0)).
  - reflexivity.
  - reflexivity.
  - reflexivity.
Defined.

(** C3, as stated, fails: in a process without [PATH] the Environment
    Builder raises [KeyError] in [set_conda_env] and runs no command at
    all, although [environment] is configured. *)
Lemma install_conda_env_unbound_path_no_command :
  cfg Demo.self0 !! "environment" = Some (VStr "environment.yml") ∧
  (install_conda_env Demo.exec_ok Demo.self0 Cases.w_nopath).1 = Raise (KeyError "PATH") ∧
  ¬ ∃ env, ECmd "conda env create -f environment.yml -p /opt/env" env
             ∈ trace (install_conda_env Demo.exec_ok Demo.self0 Cases.w_nopath).2.
Proof.
  split_and!.
  - reflexivity.
  - reflexivity.
  - intros [env Hin].
    assert (Ht : trace (install_conda_env Demo.exec_ok Demo.self0 Cases.w_nopath).2 = [])
      by reflexivity.
    rewrite Ht in Hin. by apply elem_of_nil in Hin.
Qed.

(** C6: with a post-install command configured and [PATH] bound, a
    non-zero exit status of the command makes [post_install_step] raise an
    [EasyBuildError] whose message contains the command and its captured
    output. *)
Theorem post_install_step_failure
    (exec : string → gmap string string → gmap string node → Z * string * gmap string node)
    (self : easyblock) (w : world) (c p : string)
    (ec : Z) (out : string) (f' : gmap string node) :
  cfg self !! "post_install_cmd" = Some (VStr c) →
  c ≠ EmptyString →
  environ w !! "PATH" = Some p →
  exec c (overlay (installdir self) p (environ w)) (fs w) = (ec, out, f') →
  ec ≠ 0 →
  ∃ msg, (post_install_step exec self w).1 = Raise (EasyBuildError msg) ∧
         surfaces c msg ∧ surfaces out msg.
Proof.
  intros Hcfg Hc Hp Hexec Hec.
  rewrite (post_install_step_run exec self w c p Hcfg Hc Hp). cbv zeta.
  rewrite Hexec. apply Z.eqb_neq in Hec. rewrite Hec.
  eexists. split; [reflexivity|].
  split; apply cmd_error_msg_surfaces.
Qed.

Lemma post_install_step_failure_witness :
  ∃ msg, (post_install_step Demo.exec_fail Demo.self0 Demo.w0).1
           = Raise (EasyBuildError msg) ∧
         surfaces "pip install x" msg ∧ surfaces "boom" msg.
Proof.
  apply (post_install_step_failure Demo.exec_fail Demo.self0 Demo.w0
           "pip install x" "/usr/bin" 1 "boom" (fs Demo.w0)).
  - reflexivity.
  - discriminate.
  - reflexivity.
  - reflexivity.
  - lia.
Defined.

(** C4: [initialize_conda_env] first deletes the install directory, which
    succeeds whatever was there, and then runs [conda config --add
    create_default_packages setuptools] as its only shell-out.  Provided
    that command does not itself create the directory, the install
    directory is absent in the world in which [install_step] goes on to the
    Environment Builder (and when the command fails, [install_step] stops
    there). *)
Theorem initialize_conda_env_clears_installdir
    (exec : string → gmap string string → gmap string node → Z * string * gmap string node)
    (self : easyblock) (w : world) :
  (∀ env f, absent (installdir self) f →
            absent (installdir self) (exec conda_config_cmd env f).2) →
  (rmtree2 (installdir self) w).1 = Ok tt ∧
  absent (installdir self) (fs (rmtree2 (installdir self) w).2) ∧
  trace (initialize_conda_env exec self w).2
    = (trace w ++ [ERmtree (installdir self);
                   ECmd "conda config --add create_default_packages setuptools"
                        (environ w)])%list ∧
  absent (installdir self) (fs (initialize_conda_env exec self w).2) ∧
  install_step exec self w =
    match (initialize_conda_env exec self w).1 with
    | Ok _ => (install_conda_env exec self;; post_install_step exec self)
                (initialize_conda_env exec self w).2
    | Raise e => (Raise e, (initialize_conda_env exec self w).2)
    end.
Proof.
  intros Hframe. split_and!.
  - reflexivity.
  - apply filter_under_absent.
  - rewrite initialize_conda_env_run. cbv zeta.
    destruct (exec conda_config_cmd _ _) as [[ec out] f2]. reflexivity.
  - rewrite initialize_conda_env_run. cbv zeta.
    specialize (Hframe (environ w) _ (filter_under_absent (installdir self) (fs w))).
    destruct (exec conda_config_cmd _ _) as [[ec out] f2]. exact Hframe.
  - unfold install_step. rewrite bind_unfold.
    destruct (initialize_conda_env exec self w) as [[[]|e] w1]; reflexivity.
Qed.

Lemma initialize_conda_env_clears_installdir_witness :
  (rmtree2 (installdir Demo.self0) Demo.w0).1 = Ok tt ∧
  absent (installdir Demo.self0) (fs (rmtree2 (installdir Demo.self0) Demo.w0).2) ∧
  trace (initialize_conda_env Demo.exec_ok Demo.self0 Demo.w0).2
    = (trace Demo.w0 ++ [ERmtree (installdir Demo.self0);
                   ECmd "conda config --add create_default_packages setuptools"
                        (environ Demo.w0)])%list ∧
  absent (installdir Demo.self0) (fs (initialize_conda_env Demo.exec_ok Demo.self0 Demo.w0).2) ∧
  install_step Demo.exec_ok Demo.self0 Demo.w0 =
    match (initialize_conda_env Demo.exec_ok Demo.self0 Demo.w0).1 with
    | Ok _ => (install_conda_env Demo.exec_ok Demo.self0;; post_install_step Demo.exec_ok Demo.self0)
                (initialize_conda_env Demo.exec_ok Demo.self0 Demo.w0).2
    | Raise e => (Raise e, (initialize_conda_env Demo.exec_ok Demo.self0 Demo.w0).2)
    end.
Proof.
  apply (initialize_conda_env_clears_installdir Demo.exec_ok Demo.self0 Demo.w0).
  intros env f Hf. exact Hf.
Defined.

Lemma prepend_bin_neq (d x : string) : d +:+ "/bin:" +:+ x ≠ x.
Proof.
  intros H. apply (f_equal String.length) in H.
  rewrite !length_append in H. simpl in H. lia.
Qed.

Lemma overlay_lookup_path (d p : string) (env : gmap string string) :
  overlay d p env !! "PATH" = Some (d +:+ "/bin:" +:+ p).
Proof. unfold overlay. rewrite <- overlay_path. by simplify_map_eq. Qed.

Lemma initialize_conda_env_environ
    (exec : string → gmap string string → gmap string node → Z * string * gmap string node)
    (self : easyblock) (w : world) :
  environ (initialize_conda_env exec self w).2 = environ w.
Proof.
  rewrite initialize_conda_env_run. cbv zeta.
  destruct (exec conda_config_cmd _ _) as [[ec out] f2]. reflexivity.
Qed.

Lemma install_conda_env_ok_environ
    (exec : string → gmap string string → gmap string node → Z * string * gmap string node)
    (self : easyblock) (w w' : world) (p : string) :
  environ w !! "PATH" = Some p →
  install_conda_env exec self w = (Ok tt, w') →
  environ w' = overlay (installdir self) p (environ w).
Proof.
  intros Hp Hrun. destruct (cfg self !! "environment") as [e|] eqn:Hcfg.
  - rewrite (install_conda_env_run exec self w e p Hcfg Hp) in Hrun. cbv zeta in Hrun.
    destruct (exec _ _ _) as [[ec out] f2].
    destruct (ec =? 0)%Z; [|discriminate Hrun].
    injection Hrun as <-. reflexivity.
  - unfold install_conda_env in Hrun.
    erewrite bind_ok in Hrun by (apply set_conda_env_ok; exact Hp).
    erewrite bind_raise in Hrun by (unfold cfg_get; rewrite Hcfg; reflexivity).
    discriminate Hrun.
Qed.

(** C9: when a post-install command is configured and the first two steps
    of [install_step] succeed, the overlay is applied twice, once by
    [install_conda_env] and once by [post_install_step].  The post-install
    command is therefore started with a [PATH] that begins with
    [<installdir>/bin:<installdir>/bin:], which differs from the [PATH]
    after one application: [set_conda_env] is not idempotent on [PATH]. *)
Theorem install_step_path_prepended_twice
    (exec : string → gmap string string → gmap string node → Z * string * gmap string node)
    (self : easyblock) (w w1 w2 : world) (c p : string) :
  cfg self !! "post_install_cmd" = Some (VStr c) →
  c ≠ EmptyString →
  environ w !! "PATH" = Some p →
  initialize_conda_env exec self w = (Ok tt, w1) →
  install_conda_env exec self w1 = (Ok tt, w2) →
  ∃ env2,
    trace (install_step exec self w).2 = (trace w2 ++ [ECmd c env2])%list ∧
    environ w2 !! "PATH" = Some (installdir self +:+ "/bin:" +:+ p) ∧
    env2 !! "PATH"
      = Some (installdir self +:+ "/bin:" +:+ installdir self +:+ "/bin:" +:+ p) ∧
    environ ((set_conda_env self;; set_conda_env self) w).2 !! "PATH"
      ≠ environ (set_conda_env self w).2 !! "PATH".
Proof.
  intros Hcfg Hc Hp Hinit Hinst.
  assert (Hp1 : environ w1 !! "PATH" = Some p).
  { pose proof (initialize_conda_env_environ exec self w) as He.
    rewrite Hinit in He. simpl in He. by rewrite He. }
  pose proof (install_conda_env_ok_environ exec self w1 w2 p Hp1 Hinst) as He2.
  assert (Hp2 : environ w2 !! "PATH" = Some (installdir self +:+ "/bin:" +:+ p)).
  { rewrite He2. apply overlay_lookup_path. }
  exists (overlay (installdir self) (installdir self +:+ "/bin:" +:+ p) (environ w2)).
  split_and!.
  - unfold install_step. rewrite bind_unfold, Hinit. rewrite bind_unfold, Hinst.
    rewrite (post_install_step_run exec self w2 c _ Hcfg Hc Hp2). cbv zeta.
    destruct (exec c _ _) as [[ec out] f2].
    destruct (ec =? 0)%Z; reflexivity.
  - exact Hp2.
  - apply overlay_lookup_path.
  - rewrite bind_unfold, (set_conda_env_ok self w p Hp).
    erewrite set_conda_env_ok by (simpl; apply overlay_lookup_path).
    simpl. rewrite !overlay_lookup_path.
    intros H. injection H as H. by apply prepend_bin_neq in H.
Qed.

Lemma install_step_path_prepended_twice_witness :
  ∃ env2,
    trace (install_step Demo.exec_ok Demo.self0 Demo.w0).2
      = (trace Demo.w2 ++ [ECmd "pip install x" env2])%list ∧
    environ Demo.w2 !! "PATH" = Some (installdir Demo.self0 +:+ "/bin:" +:+ "/usr/bin") ∧
    env2 !! "PATH"
      = Some (installdir Demo.self0 +:+ "/bin:" +:+ installdir Demo.self0
                +:+ "/bin:" +:+ "/usr/bin") ∧
    environ ((set_conda_env Demo.self0;; set_conda_env Demo.self0) Demo.w0).2 !! "PATH"
      ≠ environ (set_conda_env Demo.self0 Demo.w0).2 !! "PATH".
Proof.
  apply (install_step_path_prepended_twice Demo.exec_ok Demo.self0
           Demo.w0 Demo.w1 Demo.w2 "pip install x" "/usr/bin").
  - reflexivity.
  - discriminate.
  - reflexivity.
  - vm_compute. reflexivity.
  - vm_compute. reflexivity.
Defined.

(** ** [repr] of plain strings *)

Lemma repr_char_plain (c : ascii) :
  repr_plain_char c = true → repr_char squote c = String c EmptyString.
Proof.
  destruct c as [b0 b1 b2 b3 b4 b5 b6 b7].
  destruct b0, b1, b2, b3, b4, b5, b6, b7; vm_compute; intros H;
    first [reflexivity | discriminate H].
Qed.

Lemma repr_plain_no_squote (s : string) :
  repr_plain s = true → str_contains squote s = false.
Proof.
  induction s as [|c r IH]; simpl; [reflexivity|].
  intros [Hc Hr]%andb_prop. rewrite (IH Hr), orb_false_r.
  unfold repr_plain_char in Hc.
  destruct (Ascii.eqb c squote); [discriminate Hc | reflexivity].
Qed.

Lemma repr_body_plain (s : string) :
  repr_plain s = true → repr_body squote s = s.
Proof.
  induction s as [|c r IH]; simpl; [reflexivity|].
  intros [Hc Hr]%andb_prop. rewrite (repr_char_plain c Hc), (IH Hr). reflexivity.
Qed.

Lemma py_repr_plain (s : string) :
  repr_plain s = true → py_repr s = "'" +:+ s +:+ "'".
Proof.
  intros H. unfold py_repr.
  rewrite (repr_plain_no_squote s H). simpl.
  rewrite (repr_body_plain s H). reflexivity.
Qed.

(** * Further properties of the easyblock *)

(** ** The Source Stager *)

(** Without sources [extract_step] succeeds and changes nothing: no file
    operation, no descriptor touched. *)
Theorem extract_step_no_sources (self : easyblock) (w : world) :
  src self = [] →
  extract_step self w = (Ok tt, w).
Proof. intros Hsrc. unfold extract_step. rewrite Hsrc. reflexivity. Qed.

Lemma extract_step_no_sources_witness :
  extract_step Cases.self_nosrc Demo.w0 = (Ok tt, Demo.w0).
Proof. apply (extract_step_no_sources Cases.self_nosrc Demo.w0). reflexivity. Defined.

Lemma extract_step_unfold (self : easyblock) (w : world) (first : loc) (rest : list loc) :
  src self = first :: rest →
  extract_step self w = for_each (first :: rest) (stage_source self) (finalpath_set self first w).
Proof.
  intros Hsrc. unfold extract_step. rewrite Hsrc.
  erewrite bind_ok by (unfold descr_set; reflexivity). reflexivity.
Qed.

Lemma hd_app_cons {A} (xs ys : list A) (x : A) :
  ∃ rest, (xs ++ x :: ys)%list = hd x xs :: rest.
Proof. destruct xs as [|a xs]; simpl; eauto. Qed.

(** The loop of [extract_step] stops at the first descriptor whose staging
    raises: the exception and the world are those of that descriptor, and
    the descriptors after it play no part, whatever they are. *)
Theorem extract_step_stops_at_first_failure
    (self : easyblock) (w : world) (xs ys : list loc) (l : loc) (e : exn) :
  src self = (xs ++ l :: ys)%list →
  (for_each xs (stage_source self) (finalpath_set self (hd l xs) w)).1 = Ok tt →
  (stage_source self l
     (for_each xs (stage_source self) (finalpath_set self (hd l xs) w)).2).1 = Raise e →
  extract_step self w =
    (Raise e,
     (stage_source self l
        (for_each xs (stage_source self) (finalpath_set self (hd l xs) w)).2).2) ∧
  ∀ ys', extract_step (with_src self (xs ++ l :: ys')%list) w = extract_step self w.
Proof.
  intros Hsrc Hxs Hl.
  destruct (for_each xs (stage_source self) (finalpath_set self (hd l xs) w))
    as [r1 w1] eqn:E1.
  simpl in Hxs, Hl |- *. subst r1.
  destruct (stage_source self l w1) as [r2 w2] eqn:E2. simpl in Hl |- *. subst r2.
  assert (Hrun : ∀ zs (s' : easyblock),
            src s' = (xs ++ l :: zs)%list →
            builddir s' = builddir self →
            extract_step s' w = (Raise e, w2)).
  { intros zs s' Hs' Hb.
    destruct (hd_app_cons xs zs l) as (rest & Hrest).
    rewrite Hrest in Hs'.
    rewrite (extract_step_unfold s' w (hd l xs) rest Hs'), <- Hrest.
    unfold finalpath_set, stage_source. rewrite Hb.
    exact (for_each_abort xs zs l (stage_source self) _ w1 w2 e E1 E2). }
  split.
  - exact (Hrun ys self Hsrc eq_refl).
  - intros ys'. rewrite (Hrun ys self Hsrc eq_refl).
    exact (Hrun ys' (with_src self (xs ++ l :: ys')%list) eq_refl eq_refl).
Qed.

Lemma extract_step_stops_at_first_failure_witness :
  extract_step (Cases.self_x [0; 1; 3]%nat) Cases.w_x =
    (Raise (EasyBuildError
       "Couldn't copy /dl/gone.sh to /build: [Errno 2] No such file or directory: '/dl/gone.sh'"),
     (stage_source (Cases.self_x [0; 1; 3]%nat) 1%nat
        (for_each [0%nat] (stage_source (Cases.self_x [0; 1; 3]%nat))
           (finalpath_set (Cases.self_x [0; 1; 3]%nat) (hd 1%nat [0%nat]) Cases.w_x)).2).2) ∧
  ∀ ys', extract_step (with_src (Cases.self_x [0; 1; 3]%nat) ([0%nat] ++ 1%nat :: ys')%list)
           Cases.w_x
         = extract_step (Cases.self_x [0; 1; 3]%nat) Cases.w_x.
Proof.
  apply (extract_step_stops_at_first_failure (Cases.self_x [0; 1; 3]%nat) Cases.w_x
           [0%nat] [3%nat] 1%nat).
  - reflexivity.
  - vm_compute. reflexivity.
  - vm_compute. reflexivity.
Defined.

(** A descriptor whose source path leads to nothing (no file, no
    directory, no regular file on the way) and is written in printable
    characters without single quote or backslash: the [IOError] of the copy
    is turned into an [EasyBuildError] that names the path, the build
    directory and the underlying error, with the path between single
    quotes.  Nothing is written and the permission change is not
    attempted. *)
Theorem stage_source_missing_file
    (self : easyblock) (l : loc) (w : world) (s n : string) :
  heap w l !! "path" = Some (VStr s) →
  heap w l !! "name" = Some (VStr n) →
  fs_stat (fs w) s = SNoEnt →
  repr_plain s = true →
  stage_source self l w =
    (Raise (EasyBuildError
       ("Couldn't copy " +:+ s +:+ " to " +:+ builddir self +:+ ": "
          +:+ "[Errno 2] No such file or directory: '" +:+ s +:+ "'")),
     mkWorld (environ w) (fs w) (heap w) (trace w ++ [ECopy2 s (builddir self)]) (logged w)).
Proof.
  intros Hp Hn Hs Hplain.
  rewrite (stage_source_fs_error self l w
             (mkWorld (environ w) (fs w) (heap w) (trace w ++ [ECopy2 s (builddir self)])
                (logged w))
             (VStr s) n (IOError 2 "No such file or directory" s) Hp Hn).
  - simpl. unfold errno_str. rewrite (py_repr_plain s Hplain). reflexivity.
  - unfold copy_and_chmod, shutil_copy2. repeat (rewrite bind_unfold; simpl).
    rewrite Hs. reflexivity.
  - reflexivity.
Qed.

Lemma stage_source_missing_file_witness :
  stage_source (Cases.self_x [1%nat]) 1%nat Cases.w_x =
    (Raise (EasyBuildError
       ("Couldn't copy " +:+ "/dl/gone.sh" +:+ " to " +:+ builddir (Cases.self_x [1%nat]) +:+ ": "
          +:+ "[Errno 2] No such file or directory: '" +:+ "/dl/gone.sh" +:+ "'")),
     mkWorld (environ Cases.w_x) (fs Cases.w_x) (heap Cases.w_x)
       (trace Cases.w_x ++ [ECopy2 "/dl/gone.sh" (builddir (Cases.self_x [1%nat]))])
       (logged Cases.w_x)).
Proof.
  apply (stage_source_missing_file (Cases.self_x [1%nat]) 1%nat Cases.w_x "/dl/gone.sh" "gone.sh").
  - reflexivity.
  - reflexivity.
  - reflexivity.
  - reflexivity.
Defined.

(** A source file that already lies in the build directory: [shutil.copy2]
    raises [shutil.Error] (same file), which is neither an [OSError] nor an
    [IOError]; the handler does not apply and the exception leaves
    [stage_source] as it is, not as an [EasyBuildError]. *)
Theorem stage_source_same_file_not_wrapped
    (self : easyblock) (l : loc) (w : world) (s n : string) (x : file) :
  heap w l !! "path" = Some (VStr s) →
  heap w l !! "name" = Some (VStr n) →
  is_dir (fs w) (builddir self) = true →
  fs w !! s = Some (NFile x) →
  os_path_join (builddir self) (os_path_basename s) = s →
  stage_source self l w =
    (Raise (ShutilError ("`" +:+ s +:+ "` and `" +:+ s +:+ "` are the same file")),
     mkWorld (environ w) (fs w) (heap w) (trace w ++ [ECopy2 s (builddir self)]) (logged w)).
Proof.
  intros Hp Hn Hdir Hs Hsame.
  apply (stage_source_other_error self l w _ (VStr s) n _ Hp Hn); [|reflexivity].
  unfold copy_and_chmod, shutil_copy2. repeat (rewrite bind_unfold; simpl).
  rewrite Hdir, Hsame, (fs_stat_file _ _ _ Hs), String.eqb_refl. reflexivity.
Qed.

Lemma stage_source_same_file_not_wrapped_witness :
  stage_source (Cases.self_x [3%nat]) 3%nat Cases.w_x =
    (Raise (ShutilError
       ("`" +:+ "/build/staged.sh" +:+ "` and `" +:+ "/build/staged.sh" +:+ "` are the same file")),
     mkWorld (environ Cases.w_x) (fs Cases.w_x) (heap Cases.w_x)
       (trace Cases.w_x ++ [ECopy2 "/build/staged.sh" (builddir (Cases.self_x [3%nat]))])
       (logged Cases.w_x)).
Proof.
  apply (stage_source_same_file_not_wrapped (Cases.self_x [3%nat]) 3%nat Cases.w_x
           "/build/staged.sh" "staged.sh" (mkFile "echo" 420 5)).
  - reflexivity.
  - reflexivity.
  - reflexivity.
  - reflexivity.
  - reflexivity.
Defined.

(** A first descriptor without a [path] key: [extract_step] raises
    [KeyError] before any file operation, but the assignment to
    [finalpath], which comes first, has already been made. *)
Theorem extract_step_missing_path_key
    (self : easyblock) (w : world) (first : loc) (rest : list loc) :
  src self = first :: rest →
  heap w first !! "path" = None →
  (extract_step self w).1 = Raise (KeyError "path") ∧
  fs (extract_step self w).2 = fs w ∧
  trace (extract_step self w).2 = trace w ∧
  heap (extract_step self w).2 first !! "finalpath" = Some (VStr (builddir self)).
Proof.
  intros Hsrc Hp.
  assert (Hrun : extract_step self w = (Raise (KeyError "path"), finalpath_set self first w)).
  { rewrite (extract_step_unfold self w first rest Hsrc). simpl.
    rewrite bind_unfold. unfold stage_source.
    erewrite bind_raise; [reflexivity|].
    unfold descr_get, finalpath_set, descr_set. simpl.
    rewrite fn_lookup_insert, lookup_insert_ne by done. rewrite Hp. reflexivity. }
  rewrite Hrun. unfold finalpath_set, descr_set. simpl. split_and!; try reflexivity.
  rewrite fn_lookup_insert. apply lookup_insert_eq.
Qed.

Lemma extract_step_missing_path_key_witness :
  (extract_step (Cases.self_x [2; 0]%nat) Cases.w_x).1 = Raise (KeyError "path") ∧
  fs (extract_step (Cases.self_x [2; 0]%nat) Cases.w_x).2 = fs Cases.w_x ∧
  trace (extract_step (Cases.self_x [2; 0]%nat) Cases.w_x).2 = trace Cases.w_x ∧
  heap (extract_step (Cases.self_x [2; 0]%nat) Cases.w_x).2 2%nat !! "finalpath"
    = Some (VStr (builddir (Cases.self_x [2; 0]%nat))).
Proof.
  apply (extract_step_missing_path_key (Cases.self_x [2; 0]%nat) Cases.w_x 2%nat [0%nat]).
  - reflexivity.
  - reflexivity.
Defined.

(** A descriptor whose [name] is the file name of its [path], staged into
    an existing build directory, where the source is a regular file that
    is not itself [<builddir>/<name>] and [<builddir>/<name>] is not an
    existing directory: the copy appears under the build directory with
    the content and modification time of the source and mode [S_IRWXU];
    every other path, the source included, is as before. *)
Theorem stage_source_copies_and_restricts
    (self : easyblock) (l : loc) (w : world) (s : string) (x : file) :
  heap w l !! "path" = Some (VStr s) →
  heap w l !! "name" = Some (VStr (os_path_basename s)) →
  is_dir (fs w) (builddir self) = true →
  fs w !! s = Some (NFile x) →
  s ≠ os_path_join (builddir self) (os_path_basename s) →
  is_dir (fs w) (os_path_join (builddir self) (os_path_basename s)) = false →
  (stage_source self l w).1 = Ok tt ∧
  fs (stage_source self l w).2 !! os_path_join (builddir self) (os_path_basename s)
    = Some (NFile (mkFile (content x) S_IRWXU (mtime x))) ∧
  fs (stage_source self l w).2 !! s = Some (NFile x) ∧
  ∀ q, q ≠ os_path_join (builddir self) (os_path_basename s) →
       fs (stage_source self l w).2 !! q = fs w !! q.
Proof.
  intros Hp Hn Hdir Hs Hne Htd.
  rewrite (stage_source_basename_ok self l w s x Hp Hn Hdir Hs Hne Htd). simpl.
  split_and!.
  - reflexivity.
  - apply lookup_insert_eq.
  - rewrite lookup_insert_ne by congruence. exact Hs.
  - intros q Hq. by rewrite lookup_insert_ne.
Qed.

Lemma stage_source_copies_and_restricts_witness :
  (stage_source Demo.self0 1%nat Demo.w0).1 = Ok tt ∧
  fs (stage_source Demo.self0 1%nat Demo.w0).2
    !! os_path_join (builddir Demo.self0) (os_path_basename "/dl/tool.sh")
    = Some (NFile (mkFile (content Demo.file0) S_IRWXU (mtime Demo.file0))) ∧
  fs (stage_source Demo.self0 1%nat Demo.w0).2 !! "/dl/tool.sh" = Some (NFile Demo.file0) ∧
  ∀ q, q ≠ os_path_join (builddir Demo.self0) (os_path_basename "/dl/tool.sh") →
       fs (stage_source Demo.self0 1%nat Demo.w0).2 !! q = fs Demo.w0 !! q.
Proof.
  apply (stage_source_copies_and_restricts Demo.self0 1%nat Demo.w0 "/dl/tool.sh" Demo.file0).
  - reflexivity.
  - reflexivity.
  - reflexivity.
  - reflexivity.
  - discriminate.
  - reflexivity.
Defined.

(** *** What the Source Stager never does *)

Lemma sf_pure {A} (m : M A) :
  (∀ w, environ (m w).2 = environ w ∧ logged (m w).2 = logged w ∧ trace (m w).2 = trace w) →
  stager_frame m.
Proof.
  intros H w. destruct (H w) as (He & Hl & Ht). split_and!; [done..|].
  exists []. split; [by rewrite app_nil_r | constructor].
Qed.

Lemma sf_ret {A} (x : A) : stager_frame (mret x : M A).
Proof. by apply sf_pure. Qed.

Lemma sf_raise {A} (e : exn) : stager_frame (raise e : M A).
Proof. by apply sf_pure. Qed.

Lemma sf_get_fs : stager_frame get_fs.
Proof. by apply sf_pure. Qed.

Lemma sf_put_fs (f : gmap string node) : stager_frame (put_fs f).
Proof. by apply sf_pure. Qed.

Lemma sf_descr_get (l : loc) (k : string) : stager_frame (descr_get l k).
Proof. apply sf_pure. intros w. unfold descr_get. by destruct (heap w l !! k). Qed.

Lemma sf_descr_set (l : loc) (k : string) (v : pyval) : stager_frame (descr_set l k v).
Proof. by apply sf_pure. Qed.

Lemma sf_emit (ev : event) : is_file_event ev → stager_frame (emit ev).
Proof.
  intros Hev w. split_and!; [done..|].
  exists [ev]. split; [reflexivity | by repeat constructor].
Qed.

Lemma sf_bind {A B} (m : M A) (f : A → M B) :
  stager_frame m → (∀ x, stager_frame (f x)) → stager_frame (m ≫= f).
Proof.
  intros Hm Hf w. rewrite bind_unfold.
  destruct (Hm w) as (He & Hl & evs & Ht & Hev).
  destruct (m w) as [[x|e] w1]; simpl in *.
  - destruct (Hf x w1) as (He' & Hl' & evs' & Ht' & Hev').
    split_and!; [congruence..|].
    exists (evs ++ evs')%list. split; [|by apply Forall_app].
    by rewrite Ht', Ht, app_assoc.
  - split_and!; [done..|]. by exists evs.
Qed.

Lemma sf_try {A} (m : M A) (h : exn → M A) :
  stager_frame m → (∀ e, stager_frame (h e)) → stager_frame (try_except_fs m h).
Proof.
  intros Hm Hh w. unfold try_except_fs.
  destruct (Hm w) as (He & Hl & evs & Ht & Hev).
  destruct (m w) as [[x|e] w1]; simpl in *.
  - split_and!; [done..|]. by exists evs.
  - destruct (is_fs_error e); simpl.
    + destruct (Hh e w1) as (He' & Hl' & evs' & Ht' & Hev').
      split_and!; [congruence..|].
      exists (evs ++ evs')%list. split; [|by apply Forall_app].
      by rewrite Ht', Ht, app_assoc.
    + split_and!; [done..|]. by exists evs.
Qed.

Lemma sf_for_each {A} (xs : list A) (body : A → M unit) :
  (∀ x, stager_frame (body x)) → stager_frame (for_each xs body).
Proof.
  intros Hb. induction xs as [|x xs IH]; simpl.
  - apply sf_ret.
  - apply sf_bind; [apply Hb | intros _; exact IH].
Qed.

Create HintDb sf.
#[local] Hint Resolve sf_ret sf_raise sf_get_fs sf_put_fs sf_descr_get sf_descr_set : sf.

Lemma sf_shutil_copy2 (s : pyval) (dst : string) : stager_frame (shutil_copy2 s dst).
Proof.
  destruct s as [|s]; simpl.
  - apply sf_bind; [auto with sf|]. intros f. destruct (is_dir f dst); auto with sf.
  - apply sf_bind; [by apply sf_emit|]. intros _.
    apply sf_bind; [auto with sf|]. intros f.
    repeat case_match; auto with sf.
Qed.

Lemma sf_os_chmod (path : string) (perm : Z) : stager_frame (os_chmod path perm).
Proof.
  unfold os_chmod. apply sf_bind; [by apply sf_emit|]. intros _.
  apply sf_bind; [auto with sf|]. intros f.
  repeat case_match; auto with sf.
Qed.

Lemma sf_stage_source (self : easyblock) (l : loc) : stager_frame (stage_source self l).
Proof.
  unfold stage_source.
  apply sf_bind; [auto with sf|]. intros s.
  apply sf_bind; [auto with sf|]. intros n.
  apply sf_bind; [destruct n; simpl; auto with sf|]. intros dst.
  apply sf_try.
  - apply sf_bind; [apply sf_shutil_copy2 | intros _; apply sf_os_chmod].
  - intros e. auto with sf.
Qed.

(** Whatever the sources and whatever the outcome, [extract_step] leaves
    the process environment and the log as they are, and its external
    actions are copies and permission changes only: it never deletes a
    tree and never runs a shell command. *)
Theorem extract_step_only_file_operations (self : easyblock) (w : world) :
  environ (extract_step self w).2 = environ w ∧
  logged (extract_step self w).2 = logged w ∧
  ∃ evs, trace (extract_step self w).2 = (trace w ++ evs)%list ∧
         Forall is_file_event evs.
Proof.
  revert w. change (stager_frame (extract_step self)).
  unfold extract_step. destruct (src self) as [|first rest].
  - apply sf_ret.
  - apply sf_bind; [auto with sf|]. intros _.
    apply sf_for_each. apply sf_stage_source.
Qed.

(** ** The environment overlay *)

(** Without [PATH] in the environment, [set_conda_env] raises [KeyError]
    while its first argument is evaluated: no variable is set, not even
    [CONDA_ENV]. *)
Theorem set_conda_env_unbound_path (self : easyblock) (w : world) :
  environ w !! "PATH" = None →
  set_conda_env self w = (Raise (KeyError "PATH"), w) ∧
  environ (set_conda_env self w).2 !! "CONDA_ENV" = environ w !! "CONDA_ENV".
Proof.
  intros Hp.
  assert (Hrun : set_conda_env self w = (Raise (KeyError "PATH"), w)).
  { unfold set_conda_env, os_environ_copy, dict_get.
    rewrite bind_unfold. simpl. rewrite Hp. reflexivity. }
  rewrite Hrun. split; reflexivity.
Qed.

Lemma set_conda_env_unbound_path_witness :
  set_conda_env Demo.self0 Cases.w_nopath = (Raise (KeyError "PATH"), Cases.w_nopath) ∧
  environ (set_conda_env Demo.self0 Cases.w_nopath).2 !! "CONDA_ENV"
    = environ Cases.w_nopath !! "CONDA_ENV".
Proof.
  apply (set_conda_env_unbound_path Demo.self0 Cases.w_nopath). reflexivity.
Defined.

(** With [PATH] bound, [set_conda_env] succeeds, binds exactly the three
    variables of the overlay and leaves every other variable, the file
    system, the descriptors, the trace and the log untouched. *)
Theorem set_conda_env_frame (self : easyblock) (w : world) (p : string) :
  environ w !! "PATH" = Some p →
  (set_conda_env self w).1 = Ok tt ∧
  overlay_applied (installdir self) (environ (set_conda_env self w).2) ∧
  (∀ k, k ≠ "PATH" → k ≠ "CONDA_ENV" → k ≠ "CONDA_DEFAULT_ENV" →
        environ (set_conda_env self w).2 !! k = environ w !! k) ∧
  fs (set_conda_env self w).2 = fs w ∧
  heap (set_conda_env self w).2 = heap w ∧
  trace (set_conda_env self w).2 = trace w ∧
  logged (set_conda_env self w).2 = logged w.
Proof.
  intros Hp. rewrite (set_conda_env_ok self w p Hp). simpl.
  split_and!; try reflexivity.
  - apply overlay_is_applied.
  - intros k H1 H2 H3. unfold overlay. by rewrite !lookup_insert_ne.
Qed.

Lemma set_conda_env_frame_witness :
  (set_conda_env Demo.self0 Demo.w0).1 = Ok tt ∧
  overlay_applied (installdir Demo.self0) (environ (set_conda_env Demo.self0 Demo.w0).2) ∧
  (∀ k, k ≠ "PATH" → k ≠ "CONDA_ENV" → k ≠ "CONDA_DEFAULT_ENV" →
        environ (set_conda_env Demo.self0 Demo.w0).2 !! k = environ Demo.w0 !! k) ∧
  fs (set_conda_env Demo.self0 Demo.w0).2 = fs Demo.w0 ∧
  heap (set_conda_env Demo.self0 Demo.w0).2 = heap Demo.w0 ∧
  trace (set_conda_env Demo.self0 Demo.w0).2 = trace Demo.w0 ∧
  logged (set_conda_env Demo.self0 Demo.w0).2 = logged Demo.w0.
Proof.
  apply (set_conda_env_frame Demo.self0 Demo.w0 "/usr/bin"). reflexivity.
Defined.

(** A second call of [set_conda_env] changes [PATH] and nothing else:
    [CONDA_ENV] and [CONDA_DEFAULT_ENV] are rebound to the same value. *)
Theorem set_conda_env_twice_only_path (self : easyblock) (w : world) (p : string) :
  environ w !! "PATH" = Some p →
  ((set_conda_env self;; set_conda_env self) w).1 = Ok tt ∧
  environ ((set_conda_env self;; set_conda_env self) w).2
    = <["PATH" := installdir self +:+ "/bin:" +:+ installdir self +:+ "/bin:" +:+ p]>
        (environ (set_conda_env self w).2).
Proof.
  intros Hp. rewrite bind_unfold, (set_conda_env_ok self w p Hp).
  erewrite set_conda_env_ok by (simpl; apply overlay_lookup_path).
  simpl. split; [reflexivity|].
  apply map_eq. intros k. unfold overlay. rewrite !overlay_path.
  destruct (decide (k = "PATH")) as [->|H1]; [by simplify_map_eq|].
  destruct (decide (k = "CONDA_ENV")) as [->|H2]; [by simplify_map_eq|].
  destruct (decide (k = "CONDA_DEFAULT_ENV")) as [->|H3]; [by simplify_map_eq|].
  by rewrite !lookup_insert_ne.
Qed.

Lemma set_conda_env_twice_only_path_witness :
  ((set_conda_env Demo.self0;; set_conda_env Demo.self0) Demo.w0).1 = Ok tt ∧
  environ ((set_conda_env Demo.self0;; set_conda_env Demo.self0) Demo.w0).2
    = <["PATH" := installdir Demo.self0 +:+ "/bin:" +:+ installdir Demo.self0
                    +:+ "/bin:" +:+ "/usr/bin"]>
        (environ (set_conda_env Demo.self0 Demo.w0).2).
Proof.
  apply (set_conda_env_twice_only_path Demo.self0 Demo.w0 "/usr/bin"). reflexivity.
Defined.

(** ** The install step, case by case *)

Section InstallCases.

Variable exec : string → gmap string string → gmap string node → Z * string * gmap string node.
Variable self : easyblock.

Lemma rmtree2_fs (d : string) (w : world) :
  fs (rmtree2 d w).2 = filter (λ kv, under d kv.1 = false) (fs w).
Proof. reflexivity. Qed.

(** The two steps that follow a successful Environment Initializer. *)
Lemma install_step_after_config (w : world) (out : string) (f2 : gmap string node) :
  exec conda_config_cmd (environ w) (fs (rmtree2 (installdir self) w).2) = (0, out, f2) →
  install_step exec self w =
    (install_conda_env exec self;; post_install_step exec self)
      (mkWorld (environ w) f2 (heap w)
         (trace w ++ [ERmtree (installdir self); ECmd conda_config_cmd (environ w)])
         (logged w ++ [(LvlInfo, out, [])])).
Proof.
  intros Hexec. rewrite rmtree2_fs in Hexec.
  unfold install_step. rewrite bind_unfold, initialize_conda_env_run. cbv zeta.
  rewrite Hexec. reflexivity.
Qed.

End InstallCases.

(** When [conda config] exits non-zero, [install_step] stops with the
    error of that command: the install directory has already been deleted,
    the environment is not overlaid, and neither [conda env create] nor the
    post-install command is run. *)
Theorem install_step_config_failure
    (exec : string → gmap string string → gmap string node → Z * string * gmap string node)
    (self : easyblock) (w : world) (ec : Z) (out : string) (f2 : gmap string node) :
  exec conda_config_cmd (environ w) (fs (rmtree2 (installdir self) w).2) = (ec, out, f2) →
  ec ≠ 0 →
  (install_step exec self w).1
    = Raise (EasyBuildError (cmd_error_msg conda_config_cmd ec out)) ∧
  trace (install_step exec self w).2
    = (trace w ++ [ERmtree (installdir self); ECmd conda_config_cmd (environ w)])%list ∧
  environ (install_step exec self w).2 = environ w ∧
  fs (install_step exec self w).2 = f2.
Proof.
  intros Hexec Hec. rewrite rmtree2_fs in Hexec.
  unfold install_step. rewrite bind_unfold, initialize_conda_env_run. cbv zeta.
  rewrite Hexec. apply Z.eqb_neq in Hec. rewrite Hec.
  split_and!; reflexivity.
Qed.

Lemma install_step_config_failure_witness :
  (install_step Demo.exec_fail Demo.self0 Demo.w0).1
    = Raise (EasyBuildError (cmd_error_msg conda_config_cmd 1 "boom")) ∧
  trace (install_step Demo.exec_fail Demo.self0 Demo.w0).2
    = (trace Demo.w0 ++ [ERmtree (installdir Demo.self0);
                         ECmd conda_config_cmd (environ Demo.w0)])%list ∧
  environ (install_step Demo.exec_fail Demo.self0 Demo.w0).2 = environ Demo.w0 ∧
  fs (install_step Demo.exec_fail Demo.self0 Demo.w0).2
    = fs (rmtree2 (installdir Demo.self0) Demo.w0).2.
Proof.
  apply (install_step_config_failure Demo.exec_fail Demo.self0 Demo.w0 1 "boom").
  - reflexivity.
  - lia.
Defined.

(** When [conda env create] exits non-zero, [install_step] stops with the
    error of that command and the post-install command is not run; the
    environment stays overlaid. *)
Theorem install_step_create_failure
    (exec : string → gmap string string → gmap string node → Z * string * gmap string node)
    (self : easyblock) (w : world) (e : pyval) (p : string)
    (out1 out2 : string) (ec : Z) (f2 f3 : gmap string node) :
  exec conda_config_cmd (environ w) (fs (rmtree2 (installdir self) w).2) = (0, out1, f2) →
  cfg self !! "environment" = Some e →
  environ w !! "PATH" = Some p →
  exec (conda_create_cmd self e) (overlay (installdir self) p (environ w)) f2
    = (ec, out2, f3) →
  ec ≠ 0 →
  (install_step exec self w).1
    = Raise (EasyBuildError (cmd_error_msg (conda_create_cmd self e) ec out2)) ∧
  trace (install_step exec self w).2
    = (trace w ++ [ERmtree (installdir self);
                   ECmd conda_config_cmd (environ w);
                   ECmd (conda_create_cmd self e)
                        (overlay (installdir self) p (environ w))])%list ∧
  environ (install_step exec self w).2 = overlay (installdir self) p (environ w) ∧
  fs (install_step exec self w).2 = f3.
Proof.
  intros Hexec1 Hcfg Hp Hexec2 Hec.
  rewrite (install_step_after_config exec self w out1 f2 Hexec1).
  set (w1 := mkWorld _ _ _ _ _). rewrite bind_unfold.
  rewrite (install_conda_env_run exec self w1 e p Hcfg Hp). cbv zeta. simpl.
  rewrite Hexec2. apply Z.eqb_neq in Hec. rewrite Hec. simpl.
  split_and!; try reflexivity.
  by rewrite <- app_assoc.
Qed.

Lemma install_step_create_failure_witness :
  (install_step Cases.exec_create_fails Demo.self0 Demo.w0).1
    = Raise (EasyBuildError
               (cmd_error_msg (conda_create_cmd Demo.self0 (VStr "environment.yml")) 2 "no yml")) ∧
  trace (install_step Cases.exec_create_fails Demo.self0 Demo.w0).2
    = (trace Demo.w0 ++ [ERmtree (installdir Demo.self0);
                   ECmd conda_config_cmd (environ Demo.w0);
                   ECmd (conda_create_cmd Demo.self0 (VStr "environment.yml"))
                        (overlay (installdir Demo.self0) "/usr/bin" (environ Demo.w0))])%list ∧
  environ (install_step Cases.exec_create_fails Demo.self0 Demo.w0).2
    = overlay (installdir Demo.self0) "/usr/bin" (environ Demo.w0) ∧
  fs (install_step Cases.exec_create_fails Demo.self0 Demo.w0).2
    = fs (rmtree2 (installdir Demo.self0) Demo.w0).2.
Proof.
  apply (install_step_create_failure Cases.exec_create_fails Demo.self0 Demo.w0
           (VStr "environment.yml") "/usr/bin" "ok" "no yml" 2
           (fs (rmtree2 (installdir Demo.self0) Demo.w0).2)).
  - reflexivity.
  - reflexivity.
  - reflexivity.
  - reflexivity.
  - lia.
Defined.

(** A run in which all three commands exit with status 0: [install_step]
    succeeds, and its external actions are, in this order, the deletion of
    the install directory, [conda config], [conda env create] and the
    post-install command, each command working on the file system the
    previous one left. *)
Theorem install_step_success
    (exec : string → gmap string string → gmap string node → Z * string * gmap string node)
    (self : easyblock) (w : world) (e : pyval) (c p : string)
    (out1 out2 out3 : string) (f2 f3 f4 : gmap string node) :
  exec conda_config_cmd (environ w) (fs (rmtree2 (installdir self) w).2) = (0, out1, f2) →
  cfg self !! "environment" = Some e →
  environ w !! "PATH" = Some p →
  exec (conda_create_cmd self e) (overlay (installdir self) p (environ w)) f2
    = (0, out2, f3) →
  cfg self !! "post_install_cmd" = Some (VStr c) →
  c ≠ EmptyString →
  exec c (overlay (installdir self) (installdir self +:+ "/bin:" +:+ p)
            (overlay (installdir self) p (environ w))) f3
    = (0, out3, f4) →
  (install_step exec self w).1 = Ok tt ∧
  trace (install_step exec self w).2
    = (trace w ++
        [ERmtree (installdir self);
         ECmd conda_config_cmd (environ w);
         ECmd (conda_create_cmd self e) (overlay (installdir self) p (environ w));
         ECmd c (overlay (installdir self) (installdir self +:+ "/bin:" +:+ p)
                   (overlay (installdir self) p (environ w)))])%list ∧
  fs (install_step exec self w).2 = f4.
Proof.
  intros Hexec1 Hcfg Hp Hexec2 Hpost Hc Hexec3.
  rewrite (install_step_after_config exec self w out1 f2 Hexec1).
  set (w1 := mkWorld _ _ _ _ _). rewrite bind_unfold.
  rewrite (install_conda_env_run exec self w1 e p Hcfg Hp). cbv zeta. simpl.
  rewrite Hexec2. simpl.
  erewrite (post_install_step_run exec self _ c _ Hpost Hc)
    by (simpl; apply overlay_lookup_path).
  cbv zeta. simpl. rewrite Hexec3. simpl.
  split_and!; try reflexivity.
  by rewrite <- !app_assoc.
Qed.

Lemma install_step_success_witness :
  (install_step Demo.exec_ok Demo.self0 Demo.w0).1 = Ok tt ∧
  trace (install_step Demo.exec_ok Demo.self0 Demo.w0).2
    = (trace Demo.w0 ++
        [ERmtree (installdir Demo.self0);
         ECmd conda_config_cmd (environ Demo.w0);
         ECmd (conda_create_cmd Demo.self0 (VStr "environment.yml"))
              (overlay (installdir Demo.self0) "/usr/bin" (environ Demo.w0));
         ECmd "pip install x"
              (overlay (installdir Demo.self0) (installdir Demo.self0 +:+ "/bin:" +:+ "/usr/bin")
                 (overlay (installdir Demo.self0) "/usr/bin" (environ Demo.w0)))])%list ∧
  fs (install_step Demo.exec_ok Demo.self0 Demo.w0).2
    = fs (rmtree2 (installdir Demo.self0) Demo.w0).2.
Proof.
  apply (install_step_success Demo.exec_ok Demo.self0 Demo.w0
           (VStr "environment.yml") "pip install x" "/usr/bin" "done" "done" "done"
           (fs (rmtree2 (installdir Demo.self0) Demo.w0).2)
           (fs (rmtree2 (installdir Demo.self0) Demo.w0).2)).
  - reflexivity.
  - reflexivity.
  - reflexivity.
  - reflexivity.
  - reflexivity.
  - discriminate.
  - reflexivity.
Defined.

(** A process without [PATH]: [install_step] deletes the install directory
    and runs [conda config], then fails with [KeyError] in
    [set_conda_env]; [conda env create] is never run. *)
Theorem install_step_unbound_path
    (exec : string → gmap string string → gmap string node → Z * string * gmap string node)
    (self : easyblock) (w : world) (out : string) (f2 : gmap string node) :
  environ w !! "PATH" = None →
  exec conda_config_cmd (environ w) (fs (rmtree2 (installdir self) w).2) = (0, out, f2) →
  (install_step exec self w).1 = Raise (KeyError "PATH") ∧
  trace (install_step exec self w).2
    = (trace w ++ [ERmtree (installdir self); ECmd conda_config_cmd (environ w)])%list ∧
  environ (install_step exec self w).2 = environ w ∧
  fs (install_step exec self w).2 = f2.
Proof.
  intros Hp Hexec.
  rewrite (install_step_after_config exec self w out f2 Hexec).
  rewrite bind_unfold. unfold install_conda_env.
  erewrite bind_raise by (apply set_conda_env_raise; exact Hp).
  split_and!; reflexivity.
Qed.

Lemma install_step_unbound_path_witness :
  (install_step Demo.exec_ok Demo.self0 Cases.w_nopath).1 = Raise (KeyError "PATH") ∧
  trace (install_step Demo.exec_ok Demo.self0 Cases.w_nopath).2
    = (trace Cases.w_nopath ++ [ERmtree (installdir Demo.self0);
                                ECmd conda_config_cmd (environ Cases.w_nopath)])%list ∧
  environ (install_step Demo.exec_ok Demo.self0 Cases.w_nopath).2 = environ Cases.w_nopath ∧
  fs (install_step Demo.exec_ok Demo.self0 Cases.w_nopath).2
    = fs (rmtree2 (installdir Demo.self0) Cases.w_nopath).2.
Proof.
  apply (install_step_unbound_path Demo.exec_ok Demo.self0 Cases.w_nopath "done").
  - reflexivity.
  - reflexivity.
Defined.

(** ** The Environment Builder and the Post-Install Runner *)

(** [install_conda_env] overlays the environment before it looks at the
    configuration or runs anything, and never undoes it: with [PATH] bound,
    the environment afterwards is the overlaid one whether [environment] is
    configured or not and whatever the exit status of the command. *)
Theorem install_conda_env_leaves_overlay
    (exec : string → gmap string string → gmap string node → Z * string * gmap string node)
    (self : easyblock) (w : world) (p : string) :
  environ w !! "PATH" = Some p →
  environ (install_conda_env exec self w).2 = overlay (installdir self) p (environ w).
Proof.
  intros Hp. destruct (cfg self !! "environment") as [e|] eqn:Hcfg.
  - rewrite (install_conda_env_run exec self w e p Hcfg Hp). cbv zeta.
    destruct (exec _ _ _) as [[ec out] f2].
    destruct (ec =? 0)%Z; reflexivity.
  - unfold install_conda_env.
    erewrite bind_ok by (apply set_conda_env_ok; exact Hp).
    erewrite bind_raise by (unfold cfg_get; rewrite Hcfg; reflexivity).
    reflexivity.
Qed.

Lemma install_conda_env_leaves_overlay_witness :
  environ (install_conda_env Demo.exec_fail Demo.self_noenv Demo.w0).2
    = overlay (installdir Demo.self_noenv) "/usr/bin" (environ Demo.w0).
Proof.
  apply (install_conda_env_leaves_overlay Demo.exec_fail Demo.self_noenv Demo.w0 "/usr/bin").
  reflexivity.
Defined.

(** With a command configured and [PATH] bound, [post_install_step] runs
    the configured string as it is, once, in the overlaid environment; it
    succeeds exactly when the command exits with status 0, and in either
    case the environment stays overlaid and the file system is the one the
    command left. *)
Theorem post_install_step_runs_command
    (exec : string → gmap string string → gmap string node → Z * string * gmap string node)
    (self : easyblock) (w : world) (c p : string) :
  cfg self !! "post_install_cmd" = Some (VStr c) →
  c ≠ EmptyString →
  environ w !! "PATH" = Some p →
  trace (post_install_step exec self w).2
    = (trace w ++ [ECmd c (overlay (installdir self) p (environ w))])%list ∧
  environ (post_install_step exec self w).2 = overlay (installdir self) p (environ w) ∧
  fs (post_install_step exec self w).2
    = (exec c (overlay (installdir self) p (environ w)) (fs w)).2 ∧
  ((post_install_step exec self w).1 = Ok tt ↔
   (exec c (overlay (installdir self) p (environ w)) (fs w)).1.1 = 0).
Proof.
  intros Hcfg Hc Hp.
  rewrite (post_install_step_run exec self w c p Hcfg Hc Hp). cbv zeta.
  destruct (exec c _ (fs w)) as [[ec out] f2]. simpl.
  destruct (ec =? 0)%Z eqn:Hec; simpl; split_and!; try reflexivity.
  - apply Z.eqb_eq in Hec. split; auto.
  - apply Z.eqb_neq in Hec. split; [discriminate | contradiction].
Qed.

Lemma post_install_step_runs_command_witness :
  trace (post_install_step Demo.exec_ok Demo.self0 Demo.w0).2
    = (trace Demo.w0 ++
         [ECmd "pip install x" (overlay (installdir Demo.self0) "/usr/bin" (environ Demo.w0))])%list ∧
  environ (post_install_step Demo.exec_ok Demo.self0 Demo.w0).2
    = overlay (installdir Demo.self0) "/usr/bin" (environ Demo.w0) ∧
  fs (post_install_step Demo.exec_ok Demo.self0 Demo.w0).2
    = (Demo.exec_ok "pip install x"
         (overlay (installdir Demo.self0) "/usr/bin" (environ Demo.w0)) (fs Demo.w0)).2 ∧
  ((post_install_step Demo.exec_ok Demo.self0 Demo.w0).1 = Ok tt ↔
   (Demo.exec_ok "pip install x"
      (overlay (installdir Demo.self0) "/usr/bin" (environ Demo.w0)) (fs Demo.w0)).1.1 = 0).
Proof.
  apply (post_install_step_runs_command Demo.exec_ok Demo.self0 Demo.w0
           "pip install x" "/usr/bin").
  - reflexivity.
  - discriminate.
  - reflexivity.
Defined.

(** With a command configured but no [PATH] in the environment,
    [post_install_step] fails with [KeyError] before the command is run:
    no shell-out, environment and file system unchanged. *)
Theorem post_install_step_unbound_path
    (exec : string → gmap string string → gmap string node → Z * string * gmap string node)
    (self : easyblock) (w : world) (c : string) :
  cfg self !! "post_install_cmd" = Some (VStr c) →
  c ≠ EmptyString →
  environ w !! "PATH" = None →
  (post_install_step exec self w).1 = Raise (KeyError "PATH") ∧
  trace (post_install_step exec self w).2 = trace w ∧
  environ (post_install_step exec self w).2 = environ w ∧
  fs (post_install_step exec self w).2 = fs w.
Proof.
  intros Hcfg Hc Hp. unfold post_install_step.
  erewrite bind_ok by (unfold cfg_get; rewrite Hcfg; reflexivity).
  rewrite (truthy_nonempty c Hc). simpl.
  erewrite bind_ok by (unfold cfg_get; rewrite Hcfg; reflexivity).
  erewrite bind_ok by reflexivity.
  erewrite bind_raise by (apply set_conda_env_raise; exact Hp).
  split_and!; reflexivity.
Qed.

Lemma post_install_step_unbound_path_witness :
  (post_install_step Demo.exec_ok Demo.self0 Cases.w_nopath).1 = Raise (KeyError "PATH") ∧
  trace (post_install_step Demo.exec_ok Demo.self0 Cases.w_nopath).2 = trace Cases.w_nopath ∧
  environ (post_install_step Demo.exec_ok Demo.self0 Cases.w_nopath).2
    = environ Cases.w_nopath ∧
  fs (post_install_step Demo.exec_ok Demo.self0 Cases.w_nopath).2 = fs Cases.w_nopath.
Proof.
  apply (post_install_step_unbound_path Demo.exec_ok Demo.self0 Cases.w_nopath "pip install x").
  - reflexivity.
  - discriminate.
  - reflexivity.
Defined.

(** ** Configuration parameters *)

(** [extra_options] declares [environment] (default [environment.yml],
    mandatory) and [post_install_cmd] (default [None], custom), replacing
    any entries of the base class under these two names, and passes every
    other parameter of the base class through unchanged. *)
Theorem extra_options_parameters (base : gmap string (pyval * string * category)) :
  extra_options base !! "environment"
    = Some (VStr "environment.yml", "Environment.yml file", MANDATORY) ∧
  extra_options base !! "post_install_cmd"
    = Some (VNone, "Commands after install: pip install, cpanm install, etc", CUSTOM) ∧
  (∀ k, k ≠ "environment" → k ≠ "post_install_cmd" → extra_options base !! k = base !! k) ∧
  dom (extra_options base) = {[ "environment"; "post_install_cmd" ]} ∪ dom base.
Proof.
  unfold extra_options. split_and!.
  - by simplify_map_eq.
  - by simplify_map_eq.
  - intros k H1 H2. by rewrite !lookup_insert_ne.
  - rewrite !dom_insert_L. apply set_eq. intros x.
    rewrite !elem_of_union, !elem_of_singleton. tauto.
Qed.
